(** * ANN index controller (ml/src/inference/ann_index.py)

    A shallow embedding of the [ANNIndex] class: [build], [query],
    [query_batch], [save] and [load], over a model of the [hnswlib.Index]
    object it drives, followed by the properties of the controller. *)

From Stdlib Require Import ZArith QArith Ascii Sorted DecimalString DecimalZ DecimalPos.
From stdpp Require Import gmap strings list sorting.

Local Open Scope Z_scope.

(** ** Python dictionaries

    A Python [dict] iterates in insertion order, and both [save] (which dumps
    [items()]) and [load] (which inverts the identifier map by iterating it)
    depend on that order.  A dictionary is therefore an association list in
    insertion order, with at most one entry per key. *)
Module PyDict.

Section Dict.
Context {K V : Type} `{EqDecision K}.

(** [d.get(k)] *)
Fixpoint get (k : K) (d : list (K * V)) : option V :=
  match d with
  | [] => None
  | (k', v) :: rest => if decide (k = k') then Some v else get k rest
  end.

(** [d[k] = v]: an existing key keeps its position, a new one goes last. *)
Fixpoint set (k : K) (v : V) (d : list (K * V)) : list (K * V) :=
  match d with
  | [] => [(k, v)]
  | (k', v') :: rest =>
      if decide (k = k') then (k, v) :: rest else (k', v') :: set k v rest
  end.

(** [{k: v for k, v in kvs}]: the pairs are stored from left to right. *)
Definition of_pairs (kvs : list (K * V)) : list (K * V) :=
  foldl (fun d kv => set kv.1 kv.2 d) [] kvs.

End Dict.

End PyDict.

(** ** Floating-point arithmetic

    Distances are [numpy.float32] values.  The controller only subtracts a
    distance from [1] and negates it; the ordering is the one the graph sorts
    its answers by.  The development is parametric in these operations, so
    no rounding behaviour is assumed.  [float(similarity)] widens the result
    without changing its value, and a score keeps the type of a distance. *)
Class FloatOps (F : Type) := {
  fone : F;
  fsub : F -> F -> F;
  fneg : F -> F;
  fle : F -> F -> Prop;
}.

(** What the ordering results rely on: [<=] is transitive, and [1 - x] and
    [-x] reverse it (rounding is monotone). *)
Class FloatOrder (F : Type) `{FloatOps F} : Prop := {
  fle_trans : forall a b c : F, fle a b -> fle b c -> fle a c;
  fsub_one_antitone : forall a b : F, fle a b -> fle (fsub fone b) (fsub fone a);
  fneg_antitone : forall a b : F, fle a b -> fle (fneg b) (fneg a);
}.

(** ** Exceptions

    An [error] is what ends a call early: an exception or, for [Crashed],
    the death of the process inside the graph library, which no caller
    can catch. *)
Inductive hnsw_error :=
  | BadSpaceName            (* Space name must be one of l2, ip, or cosine *)
  | AlreadyInitialized      (* The index is already initiated *)
  | NotInitialized
  | WrongDimensionality     (* Wrong dimensionality of the vectors *)
  | CapacityExceeded        (* The number of elements exceeds the specified limit *)
  | NotEnoughMemory         (* Not enough memory: addPoint failed to allocate linklist *)
  | CannotReturnResults     (* Cannot return the results in a contiguous 2D array *)
  | CannotOpenFile
  | IndexCorrupted.

Inductive error :=
  | ValueError (msg : string)
  | TypeError
  | KeyError (key : string)
  | FileNotFoundError (path : string)
  | FileExistsError (path : string)
  | JSONDecodeError             (* json.load cannot decode the file *)
  | IndexError
  | AttributeError
  | RuntimeError (e : hnsw_error)
  | Crashed.

Inductive result (A : Type) : Type :=
  | Ok (a : A)
  | Err (e : error).
Arguments Ok {A} a.
Arguments Err {A} e.

(** ** Python built-ins *)

(** [str(k)] for an integer. *)
Definition py_str (z : Z) : string := NilZero.string_of_int (Z.to_int z).

(** [int(s)] on a decimal literal with an optional minus sign, which is what
    [str] produces.  The further spellings Python reads as integers (blanks
    around the literal, a plus sign, underscores) are taken as invalid. *)
Definition py_int (s : string) : result Z :=
  match NilZero.int_of_string s with
  | Some d => Ok (Z.of_int d)
  | None => Err (ValueError "invalid literal for int() with base 10")
  end.

(** Truthiness of a string: only the empty string is falsy. *)
Definition truthy (s : string) : bool :=
  match s with EmptyString => false | _ => true end.

(** [enumerate(xs)] *)
Definition enumerate {A} (xs : list A) : list (Z * A) :=
  imap (fun i x => (Z.of_nat i, x)) xs.

(** [np.arange(n)] *)
Definition arange (n : nat) : list Z := Z.of_nat <$> seq 0 n.

(** [os.path.join(path, name)] for a relative [name]. *)
Definition ends_with_slash (path : string) : bool :=
  match last (String.list_ascii_of_string path) with
  | Some c => bool_decide (c = "/"%char)
  | None => false
  end.

Definition os_path_join (path name : string) : string :=
  if bool_decide (path = "") then name
  else if ends_with_slash path then path +:+ name
  else path +:+ "/" +:+ name.

(** ** The hnswlib index object

    [hnswlib.Index] is the external graph library.  Its state is modelled by
    what the controller can observe of it; the approximate search itself
    ([knn_query]) stays abstract.  Arguments the binding receives as [size_t]
    reject negative Python integers with a [TypeError].  The model keeps to
    sizes below [2^64], to dimensions within a C [int] and to graphs the
    machine has memory for; the results that conclude a success of the
    library state what they rely on. *)
Module Hnsw.

Section Hnsw.
Context {F : Type}.

Record Index := {
  h_space : string;
  h_dim : Z;
  h_initialized : bool;
  h_max_elements : Z;
  h_ef_construction : Z;
  h_M : Z;
  h_ef : Z;
  h_items : list (Z * list F);      (* label, vector; in insertion order *)
}.

Definition default_ef : Z := 10.

Definition valid_space (space : string) : bool :=
  bool_decide (space = "l2" \/ space = "ip" \/ space = "cosine").

(** [hnswlib.Index(space=space, dim=dim)]; [dim] is received as a C [int]. *)
Definition new (space : string) (dim : Z) : result Index :=
  if valid_space space then
    Ok {| h_space := space; h_dim := dim; h_initialized := false;
          h_max_elements := 0; h_ef_construction := 0; h_M := 0;
          h_ef := default_ef; h_items := [] |}
  else Err (RuntimeError BadSpaceName).

(** [init_index(max_elements, ef_construction, M)] *)
Definition init_index (max_elements ef_construction M : Z) (g : Index)
    : result Index :=
  if decide (max_elements < 0 \/ ef_construction < 0 \/ M < 0) then Err TypeError
  else if h_initialized g then Err (RuntimeError AlreadyInitialized)
  else Ok {| h_space := h_space g; h_dim := h_dim g; h_initialized := true;
             h_max_elements := max_elements;
             h_ef_construction := ef_construction; h_M := M;
             h_ef := h_ef g; h_items := [] |}.

Definition with_items (items : list (Z * list F)) (g : Index) : Index :=
  {| h_space := h_space g; h_dim := h_dim g;
     h_initialized := h_initialized g;
     h_max_elements := h_max_elements g;
     h_ef_construction := h_ef_construction g; h_M := h_M g;
     h_ef := h_ef g; h_items := items |}.

(** [get_current_count()] *)
Definition get_current_count (g : Index) : Z := Z.of_nat (length (h_items g)).

(** One insertion: a known label has its vector replaced, a new label
    needs a free slot and then its lists of links.  The level of a new
    element is drawn with the factor [1 / ln M]: with [M = 1] the lists of
    the first element cannot be allocated, and with [M = 0] the library
    does not survive. *)
Definition add_point (vec : list F) (label : Z) (g : Index) : result Index :=
  match PyDict.get label (h_items g) with
  | Some _ => Ok (with_items (PyDict.set label vec (h_items g)) g)
  | None =>
      if decide (h_max_elements g <= get_current_count g)
      then Err (RuntimeError CapacityExceeded)
      else if decide (h_M g = 0) then Err Crashed
      else if decide (h_M g = 1) then Err (RuntimeError NotEnoughMemory)
      else Ok (with_items (h_items g ++ [(label, vec)]) g)
  end.

Fixpoint add_points (rows : list (list F * Z)) (g : Index)
    : Index * result unit :=
  match rows with
  | [] => (g, Ok tt)
  | (vec, label) :: rest =>
      match add_point vec label g with
      | Ok g' => add_points rest g'
      | Err e => (g, Err e)
      end
  end.

(** [add_items(data, ids)]: the shape is validated first, then the rows are
    inserted one by one, starting with row [0]; a failing insertion leaves
    the earlier ones in.  A matrix without rows has no row [0]: reading it
    raises [IndexError].  (The list of rows [[]] stands for the matrix of
    shape [(0, dim)].) *)
Definition add_items (data : list (list F)) (ids : list Z) (g : Index)
    : Index * result unit :=
  if negb (h_initialized g) then (g, Err (RuntimeError NotInitialized))
  else if negb (forallb (fun row => bool_decide (Z.of_nat (length row) = h_dim g)) data)
  then (g, Err (RuntimeError WrongDimensionality))
  else if negb (bool_decide (length ids = length data))
  then (g, Err (RuntimeError WrongDimensionality))
  else if bool_decide (data = []) then (g, Err IndexError)
  else add_points (zip data ids) g.

(** [set_ef(ef)] *)
Definition set_ef (ef : Z) (g : Index) : result Index :=
  if decide (ef < 0) then Err TypeError
  else Ok {| h_space := h_space g; h_dim := h_dim g;
             h_initialized := h_initialized g;
             h_max_elements := h_max_elements g;
             h_ef_construction := h_ef_construction g; h_M := h_M g;
             h_ef := ef; h_items := h_items g |}.
End Hnsw.

Arguments Index : clear implicits.

End Hnsw.

(** ** Files

    The file system maps a path to a content.  [mappings.json] is modelled
    for the documents of the sidecar format: a JSON object whose
    [id_to_user] member, when present, is an object with string values, and
    whose [metadata] member, when present, is an object with integer, string
    or [null] values; the members are kept in the order of the text. *)
Inductive json :=
  | JNull
  | JInt (z : Z)
  | JStr (s : string).

Record sidecar := {
  sc_id_to_user : option (list (string * string));
  sc_metadata : option (list (string * json));
}.

Inductive file (F : Type) :=
  | MappingsJson (doc : sidecar)      (* text that parses to such an object *)
  | Unreadable                        (* text that json.load rejects *)
  | IndexBin (g : Hnsw.Index F).      (* what save_index wrote *)
Arguments MappingsJson {F} doc.
Arguments Unreadable {F}.
Arguments IndexBin {F} g.

Section Persistence.
Context {F : Type}.

(** [index.save_index(path)] *)
Definition save_index (path : string) (g : Hnsw.Index F)
    (fs : gmap string (file F)) : result (gmap string (file F)) :=
  if Hnsw.h_initialized g then Ok (<[path := IndexBin g]> fs)
  else Err (RuntimeError NotInitialized).

(** [index.load_index(path)] on a freshly constructed instance [g]: the
    stored graph is restored; the instance keeps the space and dimension it
    was constructed with, which the library compares with nothing in the
    file, and its search breadth is back at the default. *)
Definition load_index (path : string) (g : Hnsw.Index F)
    (fs : gmap string (file F)) : result (Hnsw.Index F) :=
  match fs !! path with
  | None => Err (RuntimeError CannotOpenFile)
  | Some (IndexBin s) =>
      Ok {| Hnsw.h_space := Hnsw.h_space g; Hnsw.h_dim := Hnsw.h_dim g;
            Hnsw.h_initialized := true;
            Hnsw.h_max_elements := Hnsw.h_max_elements s;
            Hnsw.h_ef_construction := Hnsw.h_ef_construction s;
            Hnsw.h_M := Hnsw.h_M s;
            Hnsw.h_ef := Hnsw.default_ef;
            Hnsw.h_items := Hnsw.h_items s |}
  | Some _ => Err (RuntimeError IndexCorrupted)
  end.

(** [json.load(open(path))]: the members of each object are stored into a
    dictionary in the order of the text. *)
Definition json_load (path : string) (fs : gmap string (file F))
    : result sidecar :=
  match fs !! path with
  | None => Err (FileNotFoundError path)
  | Some (MappingsJson doc) =>
      Ok {| sc_id_to_user := PyDict.of_pairs <$> sc_id_to_user doc;
            sc_metadata := PyDict.of_pairs <$> sc_metadata doc |}
  | Some _ => Err JSONDecodeError
  end.
End Persistence.

(** ** The controller *)

Record ANNIndexConfig := {
  space : string;
  ef_construction : Z;
  M : Z;
  ef_search : Z;
  max_elements : Z;
}.

Definition default_config : ANNIndexConfig :=
  {| space := "cosine"; ef_construction := 200; M := 16; ef_search := 100;
     max_elements := 1000000 |}.

Record ANNIndex (F : Type) := {
  config : ANNIndexConfig;
  dim : Z;
  index : option (Hnsw.Index F);
  id_to_user : list (Z * string);
  user_to_id : list (string * Z);
  metadata : list (string * json);
}.
Arguments config {F} _.
Arguments dim {F} _.
Arguments index {F} _.
Arguments id_to_user {F} _.
Arguments user_to_id {F} _.
Arguments metadata {F} _.

(** [ANNIndex(config, dim)]; the source defaults are [None] and [384]. *)
Definition new_ANNIndex {F} (cfg : option ANNIndexConfig) (dim : Z) : ANNIndex F :=
  {| config := default default_config cfg; dim := dim; index := None;
     id_to_user := []; user_to_id := []; metadata := [] |}.

(** A method runs on [self], may assign its attributes and may raise; the
    attributes assigned before an exception stay assigned. *)
Definition method (F A : Type) : Type := ANNIndex F -> ANNIndex F * result A.

Section Method.
Context {F : Type}.

Definition ret {A} (a : A) : method F A := fun self => (self, Ok a).

Definition bind {A B} (m : method F A) (k : A -> method F B) : method F B :=
  fun self =>
    match m self with
    | (self', Ok a) => k a self'
    | (self', Err e) => (self', Err e)
    end.

Definition lift {A} (r : result A) : method F A := fun self => (self, r).

Definition read {A} (attr : ANNIndex F -> A) : method F A :=
  fun self => (self, Ok (attr self)).

Definition set_dim (d : Z) : method F unit := fun self =>
  ({| config := config self; dim := d; index := index self;
      id_to_user := id_to_user self; user_to_id := user_to_id self;
      metadata := metadata self |}, Ok tt).

Definition set_index (g : Hnsw.Index F) : method F unit := fun self =>
  ({| config := config self; dim := dim self; index := Some g;
      id_to_user := id_to_user self; user_to_id := user_to_id self;
      metadata := metadata self |}, Ok tt).

Definition set_id_to_user (d : list (Z * string)) : method F unit := fun self =>
  ({| config := config self; dim := dim self; index := index self;
      id_to_user := d; user_to_id := user_to_id self;
      metadata := metadata self |}, Ok tt).

Definition set_user_to_id (d : list (string * Z)) : method F unit := fun self =>
  ({| config := config self; dim := dim self; index := index self;
      id_to_user := id_to_user self; user_to_id := d;
      metadata := metadata self |}, Ok tt).

Definition set_metadata (d : list (string * json)) : method F unit := fun self =>
  ({| config := config self; dim := dim self; index := index self;
      id_to_user := id_to_user self; user_to_id := user_to_id self;
      metadata := d |}, Ok tt).

(** [self.index.f(...)] for a library call that replaces the object's
    state or raises. *)
Definition on_index (f : Hnsw.Index F -> result (Hnsw.Index F)) : method F unit :=
  fun self =>
    match index self with
    | None => (self, Err AttributeError)
    | Some g =>
        match f g with
        | Ok g' => set_index g' self
        | Err e => (self, Err e)
        end
    end.

(** The same for a call that can fail half-way. *)
Definition on_index_partial (f : Hnsw.Index F -> Hnsw.Index F * result unit)
    : method F unit :=
  fun self =>
    match index self with
    | None => (self, Err AttributeError)
    | Some g => let '(g', r) := f g in
                let '(self', _) := set_index g' self in (self', r)
    end.
End Method.

Notation "x <- c1 ;; c2" := (bind c1 (fun x => c2))
  (at level 100, c1 at next level, right associativity).
Notation "c1 ;; c2" := (bind c1 (fun _ => c2))
  (at level 100, right associativity).

Section Controller.
Context {F : Type} `{FloatOps F}.

(** [index.knn_query(data, k)]: the labels and the distances, one row per
    query.  The search is approximate, so it is a parameter. *)
Variable knn_query :
  Hnsw.Index F -> list (list F) -> Z -> result (list (list Z) * list (list F)).

(** [build(embeddings, user_ids)]; [now] is [datetime.utcnow().isoformat()].
    The matrix is the list of its rows.  Messages printed on the way are not
    part of the model, here and below. *)
Definition build (now : string) (embeddings : list (list F))
    (user_ids : list string) : method F unit :=
  let n_elements := length embeddings in
  cfg <- read config ;;
  d <- read dim ;;
  g <- lift (Hnsw.new (space cfg) d) ;;
  set_index g ;;
  on_index (Hnsw.init_index
              (Z.max (Z.of_nat n_elements) (max_elements cfg))
              (ef_construction cfg) (M cfg)) ;;
  set_id_to_user (PyDict.of_pairs (enumerate user_ids)) ;;
  set_user_to_id
    (PyDict.of_pairs ((fun iu => (iu.2, iu.1)) <$> enumerate user_ids)) ;;
  let internal_ids := arange n_elements in
  on_index_partial (Hnsw.add_items embeddings internal_ids) ;;
  on_index (Hnsw.set_ef (ef_search cfg)) ;;
  set_metadata
    [ ("n_elements", JInt (Z.of_nat n_elements));
      ("dim", JInt d);
      ("space", JStr (space cfg));
      ("built_at", JStr now);
      ("ef_construction", JInt (ef_construction cfg));
      ("M", JInt (M cfg)) ] ;;
  ret tt.

(** The loop of [query] over [zip(internal_ids[0], distances[0])]. *)
Fixpoint query_loop (self : ANNIndex F) (exclude_set : gset string) (k : Z)
    (candidates : list (Z * F)) (results : list (string * F))
    : list (string * F) :=
  match candidates with
  | [] => results
  | (internal_id, distance) :: rest =>
      match PyDict.get internal_id (id_to_user self) with
      | Some user_id =>
          if truthy user_id && bool_decide (user_id ∉ exclude_set) then
            let similarity :=
              if bool_decide (space (config self) = "cosine")
              then fsub fone distance
              else fneg distance in
            let results := results ++ [(user_id, similarity)] in
            if bool_decide (Z.of_nat (length results) >= k) then results
            else query_loop self exclude_set k rest results
          else query_loop self exclude_set k rest results
      | None => query_loop self exclude_set k rest results
      end
  end.

(** [len(exclude_ids) if exclude_ids else 0] *)
Definition exclude_len (exclude_ids : option (list string)) : Z :=
  match exclude_ids with
  | Some ((_ :: _) as l) => Z.of_nat (length l)
  | _ => 0
  end.

(** [set(exclude_ids) if exclude_ids else set()] *)
Definition exclude_set_of (exclude_ids : option (list string)) : gset string :=
  match exclude_ids with
  | Some ((_ :: _) as l) => list_to_set l
  | _ => ∅
  end.

(** [query(embedding, k, exclude_ids)] *)
Definition query (self : ANNIndex F) (embedding : list F) (k : Z)
    (exclude_ids : option (list string)) : result (list (string * F)) :=
  match index self with
  | None => Err (ValueError "Index not built. Call build() first.")
  | Some g =>
      let query_k := k + exclude_len exclude_ids + 10 in
      let query_k := Z.min query_k (Hnsw.get_current_count g) in
      let embedding := [embedding] in
      match knn_query g embedding query_k with
      | Err e => Err e
      | Ok (internal_ids, distances) =>
          let exclude_set := exclude_set_of exclude_ids in
          match internal_ids, distances with
          | ids0 :: _, distances0 :: _ =>
              Ok (query_loop self exclude_set k (zip ids0 distances0) [])
          | _, _ => Err IndexError
          end
      end
  end.

(** The inner loop of [query_batch]. *)
Fixpoint batch_row_loop (self : ANNIndex F) (candidates : list (Z * F))
    (results : list (string * F)) : list (string * F) :=
  match candidates with
  | [] => results
  | (internal_id, distance) :: rest =>
      match PyDict.get internal_id (id_to_user self) with
      | Some user_id =>
          if truthy user_id then
            let similarity :=
              if bool_decide (space (config self) = "cosine")
              then fsub fone distance
              else fneg distance in
            batch_row_loop self rest (results ++ [(user_id, similarity)])
          else batch_row_loop self rest results
      | None => batch_row_loop self rest results
      end
  end.

(** The outer loop of [query_batch] over [zip(internal_ids, distances)]. *)
Fixpoint batch_loop (self : ANNIndex F) (rows : list (list Z * list F))
    (all_results : list (list (string * F))) : list (list (string * F)) :=
  match rows with
  | [] => all_results
  | (query_ids, query_distances) :: rest =>
      let results := batch_row_loop self (zip query_ids query_distances) [] in
      batch_loop self rest (all_results ++ [results])
  end.

(** [query_batch(embeddings, k)] *)
Definition query_batch (self : ANNIndex F) (embeddings : list (list F))
    (k : Z) : result (list (list (string * F))) :=
  match index self with
  | None => Err (ValueError "Index not built. Call build() first.")
  | Some g =>
      match knn_query g embeddings k with
      | Err e => Err e
      | Ok (internal_ids, distances) =>
          Ok (batch_loop self (zip internal_ids distances) [])
      end
  end.

(** [os.makedirs(path, exist_ok=True)].  Directories are not entries of the
    file model: creating one, or finding it there, changes no file, and
    whether the call raises (an empty path, a regular file in the way, a
    parent that cannot be written) is the environment's. *)
Variable makedirs : string -> gmap string (file F) -> result unit.

(** [save(path)] *)
Definition save (path : string) (self : ANNIndex F)
    (fs : gmap string (file F)) : gmap string (file F) * result unit :=
  match index self with
  | None => (fs, Err (ValueError "No index to save"))
  | Some g =>
      match makedirs path fs with
      | Err e => (fs, Err e)
      | Ok _ =>
          let index_path := os_path_join path "index.bin" in
          match save_index index_path g fs with
          | Err e => (fs, Err e)
          | Ok fs' =>
              let mappings_path := os_path_join path "mappings.json" in
              let doc :=
                {| sc_id_to_user :=
                     Some (PyDict.of_pairs
                             ((fun kv => (py_str kv.1, kv.2)) <$> id_to_user self));
                   sc_metadata := Some (metadata self) |} in
              (<[mappings_path := MappingsJson doc]> fs', Ok tt)
          end
      end
  end.

(** [{int(k): v for k, v in items}]: the first key that is not an integer
    literal raises, before anything is stored. *)
Fixpoint int_keys (items : list (string * string)) : result (list (Z * string)) :=
  match items with
  | [] => Ok []
  | (k, v) :: rest =>
      match py_int k with
      | Err e => Err e
      | Ok i =>
          match int_keys rest with
          | Err e => Err e
          | Ok rest' => Ok ((i, v) :: rest')
          end
      end
  end.

(** [load(path)].  A [dim] or [space] of the wrong type is rejected by the
    constructor of the graph. *)
Definition load (path : string) (fs : gmap string (file F)) : method F unit :=
  let mappings_path := os_path_join path "mappings.json" in
  data <- lift (json_load mappings_path fs) ;;
  items <- lift (match sc_id_to_user data with
                 | Some m => Ok m
                 | None => Err (KeyError "id_to_user")
                 end) ;;
  pairs <- lift (int_keys items) ;;
  set_id_to_user (PyDict.of_pairs pairs) ;;
  m <- read id_to_user ;;
  set_user_to_id (PyDict.of_pairs ((fun kv => (kv.2, kv.1)) <$> m)) ;;
  set_metadata (default [] (sc_metadata data)) ;;
  md <- read metadata ;;
  d0 <- read dim ;;
  d <- lift (match PyDict.get "dim" md with
             | None => Ok d0
             | Some (JInt z) => Ok z
             | Some _ => Err TypeError
             end) ;;
  set_dim d ;;
  cfg <- read config ;;
  sp <- lift (match PyDict.get "space" md with
              | None => Ok (space cfg)
              | Some (JStr s) => Ok s
              | Some _ => Err TypeError
              end) ;;
  g <- lift (Hnsw.new sp d) ;;
  set_index g ;;
  let index_path := os_path_join path "index.bin" in
  on_index (fun g => load_index index_path g fs) ;;
  on_index (Hnsw.set_ef (ef_search cfg)) ;;
  ret tt.
End Controller.

(** ** Notions used to state the properties *)
Section Notions.
Context {F : Type} `{FloatOps F}.

(** The score of a distance in a similarity space. *)
Definition similarity_of (space : string) (distance : F) : F :=
  if bool_decide (space = "cosine") then fsub fone distance else fneg distance.

(** A candidate is eligible when its handle translates to an external ID
    that is not empty and not excluded. *)
Definition eligible (self : ANNIndex F) (exclude_set : gset string)
    (c : Z * F) : bool :=
  match PyDict.get c.1 (id_to_user self) with
  | Some user_id => truthy user_id && bool_decide (user_id ∉ exclude_set)
  | None => false
  end.

(** A candidate is non-excluded when its external ID, if it has one, is
    not in the exclusion set. *)
Definition non_excluded (self : ANNIndex F) (exclude_set : gset string)
    (c : Z * F) : bool :=
  match PyDict.get c.1 (id_to_user self) with
  | Some user_id => bool_decide (user_id ∉ exclude_set)
  | None => true
  end.

(** What an eligible candidate is reported as. *)
Definition report (self : ANNIndex F) (exclude_set : gset string)
    (c : Z * F) : option (string * F) :=
  match PyDict.get c.1 (id_to_user self) with
  | Some user_id =>
      if truthy user_id && bool_decide (user_id ∉ exclude_set)
      then Some (user_id, similarity_of (space (config self)) c.2)
      else None
  | None => None
  end.

Definition surviving (self : ANNIndex F) (exclude_set : gset string)
    (candidates : list (Z * F)) : list (string * F) :=
  omap (report self exclude_set) candidates.

(** [|E|] for an optional exclusion list: a missing one counts for 0. *)
Definition exclusion_size (exclude_ids : option (list string)) : Z :=
  match exclude_ids with
  | Some l => Z.of_nat (length l)
  | None => 0
  end.

(** Membership in an optional exclusion list. *)
Definition excluded (exclude_ids : option (list string)) (user_id : string) : Prop :=
  match exclude_ids with
  | Some l => user_id ∈ l
  | None => False
  end.

(** The inputs on which the model of [build] returns: a space the library
    knows, sizes it accepts, at least two links per element, and a matrix
    with at least one row whose rows have the controller's dimension. *)
Definition buildable (self : ANNIndex F) (embeddings : list (list F)) : Prop :=
  Hnsw.valid_space (space (config self)) = true /\
  0 <= ef_construction (config self) /\
  2 <= M (config self) /\
  0 <= ef_search (config self) /\
  embeddings <> [] /\
  Forall (fun row => Z.of_nat (length row) = dim self) embeddings.

(** The controller with another configured [max_elements]. *)
Definition with_max_elements (m : Z) (self : ANNIndex F) : ANNIndex F :=
  {| config :=
       {| space := space (config self);
          ef_construction := ef_construction (config self);
          M := M (config self);
          ef_search := ef_search (config self);
          max_elements := m |};
     dim := dim self; index := index self;
     id_to_user := id_to_user self; user_to_id := user_to_id self;
     metadata := metadata self |}.

(** The graph a successful [build] leaves. *)
Definition built_graph (self : ANNIndex F) (embeddings : list (list F))
    : Hnsw.Index F :=
  {| Hnsw.h_space := space (config self);
     Hnsw.h_dim := dim self;
     Hnsw.h_initialized := true;
     Hnsw.h_max_elements :=
       Z.max (Z.of_nat (length embeddings)) (max_elements (config self));
     Hnsw.h_ef_construction := ef_construction (config self);
     Hnsw.h_M := M (config self);
     Hnsw.h_ef := ef_search (config self);
     Hnsw.h_items := zip (arange (length embeddings)) embeddings |}.

(** The controller a successful [build] leaves. *)
Definition built_state (now : string) (embeddings : list (list F))
    (user_ids : list string) (self : ANNIndex F) : ANNIndex F :=
  {| config := config self;
     dim := dim self;
     index := Some (built_graph self embeddings);
     id_to_user := enumerate user_ids;
     user_to_id :=
       PyDict.of_pairs ((fun iu => (iu.2, iu.1)) <$> enumerate user_ids);
     metadata :=
       [ ("n_elements", JInt (Z.of_nat (length embeddings)));
         ("dim", JInt (dim self));
         ("space", JStr (space (config self)));
         ("built_at", JStr now);
         ("ef_construction", JInt (ef_construction (config self)));
         ("M", JInt (M (config self))) ] |}.

(** The graph [load] leaves when it restores the stored graph [s] into an
    instance of space [sp] and dimension [d]. *)
Definition loaded_graph (self : ANNIndex F) (sp : string) (d : Z)
    (s : Hnsw.Index F) : Hnsw.Index F :=
  {| Hnsw.h_space := sp;
     Hnsw.h_dim := d;
     Hnsw.h_initialized := true;
     Hnsw.h_max_elements := Hnsw.h_max_elements s;
     Hnsw.h_ef_construction := Hnsw.h_ef_construction s;
     Hnsw.h_M := Hnsw.h_M s;
     Hnsw.h_ef := ef_search (config self);
     Hnsw.h_items := Hnsw.h_items s |}.

(** The controller a successful [load] leaves. *)
Definition loaded_state (self : ANNIndex F) (sp : string) (d : Z)
    (s : Hnsw.Index F) (pairs : list (Z * string))
    (md : list (string * json)) : ANNIndex F :=
  {| config := config self;
     dim := d;
     index := Some (loaded_graph self sp d s);
     id_to_user := PyDict.of_pairs pairs;
     user_to_id :=
       PyDict.of_pairs ((fun kv => (kv.2, kv.1)) <$> PyDict.of_pairs pairs);
     metadata := md |}.

(** How many candidates [query] asks the graph for. *)
Definition request_size (k : Z) (exclude_ids : option (list string))
    (g : Hnsw.Index F) : Z :=
  Z.min (k + exclusion_size exclude_ids + 10) (Hnsw.get_current_count g).

(** Distances in ascending order, as the graph delivers a row. *)
Definition ascending (distances : list F) : Prop := Sorted fle distances.

(** Scores in non-increasing order. *)
Definition non_increasing (results : list (string * F)) : Prop :=
  StronglySorted (fun a b => fle b.2 a.2) results.
End Notions.

(** ** A concrete instance

    Rational arithmetic and an exact (brute-force) search stand in for
    [float32] and for the approximate graph search in the worked examples. *)
Module Exact.

#[export] Instance Q_ops : FloatOps Q :=
  {| fone := 1%Q; fsub := Qminus; fneg := Qopp; fle := Qle |}.

Definition dot (u v : list Q) : Q :=
  foldr Qplus 0%Q (zip_with Qmult u v).

(** Squared Euclidean distance for [l2]; [1 - <u, v>] for [ip], and for
    [cosine] on vectors of unit length. *)
Definition distance (space : string) (u v : list Q) : Q :=
  if bool_decide (space = "l2")
  then foldr Qplus 0%Q (zip_with (fun a b => (a - b) * (a - b))%Q u v)
  else (1 - dot u v)%Q.

Definition closer (a b : Z * Q) : Prop := Is_true (Qle_bool a.2 b.2).

Definition nearest (g : Hnsw.Index Q) (q : list Q) (k : nat) : list (Z * Q) :=
  take k (merge_sort closer
            ((fun item => (item.1, distance (Hnsw.h_space g) q item.2))
               <$> Hnsw.h_items g)).

(** The library cannot fill a row of [k] answers from fewer elements. *)
Definition knn_query (g : Hnsw.Index Q) (data : list (list Q)) (k : Z)
    : result (list (list Z) * list (list Q)) :=
  if decide (0 <= k <= Hnsw.get_current_count g) then
    let rows := (fun q => nearest g q (Z.to_nat k)) <$> data in
    Ok ((fun row => row.*1) <$> rows, (fun row => row.*2) <$> rows)
  else Err (RuntimeError CannotReturnResults).

(** Worked inputs: two orthogonal unit vectors. *)
Definition e1 : list Q := [1%Q; 0%Q].
Definition e2 : list Q := [0%Q; 1%Q].
Definition built_at : string := "2026-01-01T00:00:00".

Definition fresh2 : ANNIndex Q := new_ANNIndex None 2.

(** Two profiles under the default (cosine) configuration. *)
Definition two_profiles : ANNIndex Q :=
  (build built_at [e1; e2] ["a"; "b"] fresh2).1.

(** A single profile whose external ID is the empty string. *)
Definition blank_profile : ANNIndex Q :=
  (build built_at [e1] [""] fresh2).1.

(** A configuration with room for one element only. *)
Definition tiny_config : ANNIndexConfig :=
  {| space := "cosine"; ef_construction := 200; M := 16; ef_search := 100;
     max_elements := 1 |}.

(** Two profiles under the Euclidean space, saved to a directory and
    loaded into a controller with the default configuration. *)
Definition l2_config : ANNIndexConfig :=
  {| space := "l2"; ef_construction := 200; M := 16; ef_search := 100;
     max_elements := 1000000 |}.

Definition l2_profiles : ANNIndex Q :=
  (build built_at [e1; e2] ["a"; "b"] (new_ANNIndex (Some l2_config) 2)).1.

(** [os.makedirs] where nothing but a regular file at the path itself can
    be in the way. *)
Definition makedirs (path : string) (fs : gmap string (file Q)) : result unit :=
  if bool_decide (path = "") then Err (FileNotFoundError path)
  else if bool_decide (is_Some (fs !! path)) then Err (FileExistsError path)
  else Ok tt.

Definition l2_saved : gmap string (file Q) :=
  (save makedirs "out" l2_profiles ∅).1.

Definition l2_reloaded : ANNIndex Q :=
  (load "out" l2_saved (new_ANNIndex None 384)).1.

(** A directory whose sidecar has the identifier map but no metadata. *)
Definition bare_sidecar : sidecar :=
  {| sc_id_to_user := Some [("0", "a"); ("1", "b")]; sc_metadata := None |}.

Definition bare_dir : gmap string (file Q) :=
  <["out/mappings.json" := MappingsJson bare_sidecar]>
    (<["out/index.bin" := IndexBin (built_graph fresh2 [e1; e2])]> ∅).

End Exact.

(** ** The build pipeline

    [build_index_from_embeddings] (ann_index.py) and [main]
    (scripts/build_ann_index.py) read a matrix and an ID list from files,
    build the index and save it.  What the reads return is the
    environment's: [np_load] stands for [np.load(path)] and [read_user_ids]
    for [json.load(open(path))] on the ID file.  A loaded matrix carries its
    number of columns, [shape[1]], also when it has no row. *)
Record ndarray (F : Type) := {
  shape1 : nat;
  rows : list (list F);
}.
Arguments shape1 {F} _.
Arguments rows {F} _.

(** Every row of a matrix has [shape[1]] entries. *)
Definition rectangular {F} (a : ndarray F) : Prop :=
  Forall (fun row => length row = shape1 a) (rows a).

Section Pipeline.
Context {F : Type} `{FloatOps F}.

Variable knn_query :
  Hnsw.Index F -> list (list F) -> Z -> result (list (list Z) * list (list F)).

(** [os.makedirs(path, exist_ok=True)], as for [save]. *)
Variable makedirs : string -> gmap string (file F) -> result unit.

Variable np_load : string -> result (ndarray F).
Variable read_user_ids : string -> result (list string).

(** The optional upload at the end of [main]: the look-up of the
    credentials, and the upload of the directory or the notice that it is
    skipped. *)
Variable upload_step : string -> result unit.

(** [build_index_from_embeddings(embeddings_path, user_ids_path,
    output_path, config)] *)
Definition build_index_from_embeddings (now : string)
    (embeddings_path user_ids_path output_path : string)
    (config : option ANNIndexConfig) (fs : gmap string (file F))
    : gmap string (file F) * result (ANNIndex F) :=
  match np_load embeddings_path with
  | Err e => (fs, Err e)
  | Ok embeddings =>
      match read_user_ids user_ids_path with
      | Err e => (fs, Err e)
      | Ok user_ids =>
          let index := new_ANNIndex config (Z.of_nat (shape1 embeddings)) in
          match build now (rows embeddings) user_ids index with
          | (_, Err e) => (fs, Err e)
          | (index, Ok _) =>
              match save makedirs output_path index fs with
              | (fs', Err e) => (fs', Err e)
              | (fs', Ok _) => (fs', Ok index)
              end
          end
      end
  end.

(** [main(embeddings, output, ef_construction, m, ef_search, upload_r2)];
    the result is the list the test query prints. *)
Definition main (now : string) (embeddings output : string)
    (ef_construction m ef_search : Z) (upload_r2 : bool)
    (fs : gmap string (file F))
    : gmap string (file F) * result (list (string * F)) :=
  let embeddings_path := os_path_join embeddings "embeddings.npy" in
  let user_ids_path := os_path_join embeddings "user_ids.json" in
  match np_load embeddings_path with
  | Err e => (fs, Err e)
  | Ok embedding_matrix =>
      match read_user_ids user_ids_path with
      | Err e => (fs, Err e)
      | Ok user_ids =>
          let config :=
            {| space := space default_config;
               ef_construction := ef_construction;
               M := m;
               ef_search := ef_search;
               max_elements := max_elements default_config |} in
          let index :=
            new_ANNIndex (Some config) (Z.of_nat (shape1 embedding_matrix)) in
          match build now (rows embedding_matrix) user_ids index with
          | (_, Err e) => (fs, Err e)
          | (index, Ok _) =>
              match makedirs output fs with
              | Err e => (fs, Err e)
              | Ok _ =>
                  match save makedirs output index fs with
                  | (fs', Err e) => (fs', Err e)
                  | (fs', Ok _) =>
                      match rows embedding_matrix with
                      | [] => (fs', Err IndexError)
                      | test_embedding :: _ =>
                          match user_ids with
                          | [] => (fs', Err IndexError)
                          | first_id :: _ =>
                              match query knn_query index test_embedding 5
                                      (Some [first_id]) with
                              | Err e => (fs', Err e)
                              | Ok results =>
                                  if upload_r2 then
                                    match upload_step output with
                                    | Err e => (fs', Err e)
                                    | Ok _ => (fs', Ok results)
                                    end
                                  else (fs', Ok results)
                              end
                          end
                      end
                  end
              end
          end
      end
  end.
End Pipeline.

(** ** More notions *)
Section MoreNotions.
Context {F : Type}.

(** What [save] writes as [mappings.json]. *)
Definition saved_sidecar (self : ANNIndex F) : sidecar :=
  {| sc_id_to_user :=
       Some (PyDict.of_pairs
               ((fun kv => (py_str kv.1, kv.2)) <$> id_to_user self));
     sc_metadata := Some (metadata self) |}.

(** The directory after [save]. *)
Definition saved_dir (path : string) (self : ANNIndex F) (g : Hnsw.Index F)
    (fs : gmap string (file F)) : gmap string (file F) :=
  <[os_path_join path "mappings.json" := MappingsJson (saved_sidecar self)]>
    (<[os_path_join path "index.bin" := IndexBin g]> fs).

(** A graph with another search breadth. *)
Definition with_ef (ef : Z) (g : Hnsw.Index F) : Hnsw.Index F :=
  {| Hnsw.h_space := Hnsw.h_space g; Hnsw.h_dim := Hnsw.h_dim g;
     Hnsw.h_initialized := Hnsw.h_initialized g;
     Hnsw.h_max_elements := Hnsw.h_max_elements g;
     Hnsw.h_ef_construction := Hnsw.h_ef_construction g;
     Hnsw.h_M := Hnsw.h_M g;
     Hnsw.h_ef := ef; Hnsw.h_items := Hnsw.h_items g |}.

(** The configuration [main] builds from its options. *)
Definition main_config (ef_construction m ef_search : Z) : ANNIndexConfig :=
  {| space := "cosine"; ef_construction := ef_construction; M := m;
     ef_search := ef_search; max_elements := 1000000 |}.
End MoreNotions.

(** Worked inputs for the pipeline: a directory [data] with a 2 x 2 matrix
    and two IDs; nothing is uploaded. *)
Module Worked.

Definition np_load (path : string) : result (ndarray Q) :=
  if bool_decide (path = "data/embeddings.npy")
  then Ok {| shape1 := 2; rows := [Exact.e1; Exact.e2] |}
  else Err (FileNotFoundError path).

Definition read_user_ids (path : string) : result (list string) :=
  if bool_decide (path = "data/user_ids.json")
  then Ok ["a"; "b"]
  else Err (FileNotFoundError path).

Definition upload_step (output : string) : result unit := Ok tt.

(** The same directory with a matrix of no rows. *)
Definition np_load_empty (path : string) : result (ndarray Q) :=
  if bool_decide (path = "data/embeddings.npy")
  then Ok {| shape1 := 2; rows := [] |}
  else Err (FileNotFoundError path).

(** Two rows of width 3 for a controller of dimension 2. *)
Definition wide_rows : list (list Q) := [[1%Q; 0%Q; 0%Q]; [0%Q; 1%Q; 0%Q]].

(** A configuration whose space name the graph library does not know. *)
Definition euclidean_config : ANNIndexConfig :=
  {| space := "euclidean"; ef_construction := 200; M := 16; ef_search := 100;
     max_elements := 1000000 |}.

(** A directory with a sidecar and no binary. *)
Definition sidecar_only : gmap string (file Q) :=
  {["out/mappings.json" := MappingsJson Exact.bare_sidecar]}.

End Worked.

(** * Properties *)

(** ** Dictionaries *)
Section DictFacts.
Context {K V : Type} `{EqDecision K}.
Implicit Types (d : list (K * V)) (k : K) (v : V).

Lemma get_None_iff k d : PyDict.get k d = None <-> k ∉ d.*1.
Proof.
  induction d as [|[k' v'] d IH]; simpl.
  - split; [intros _; apply not_elem_of_nil | done].
  - rewrite not_elem_of_cons. case_decide; [split; [done | tauto] | tauto].
Qed.

Lemma set_fresh k v d : k ∉ d.*1 -> PyDict.set k v d = d ++ [(k, v)].
Proof.
  induction d as [|[k' v'] d IH]; simpl; [done|].
  rewrite not_elem_of_cons. intros [Hne Hk].
  case_decide; [done | by rewrite IH].
Qed.

Lemma of_pairs_from d (kvs : list (K * V)) :
  NoDup (d ++ kvs).*1 ->
  foldl (fun d kv => PyDict.set kv.1 kv.2 d) d kvs = d ++ kvs.
Proof.
  revert d. induction kvs as [|[k v] kvs IH]; intros d Hnd; simpl.
  - by rewrite app_nil_r.
  - rewrite set_fresh.
    + rewrite IH; rewrite <- app_assoc; done.
    + rewrite fmap_app in Hnd. apply NoDup_app in Hnd as (_ & Hd & _).
      intros Hin. apply (Hd k Hin). simpl. left.
Qed.

(** A comprehension over pairs with distinct keys stores them as they come. *)
Lemma of_pairs_NoDup (kvs : list (K * V)) : NoDup kvs.*1 -> PyDict.of_pairs kvs = kvs.
Proof. intros Hnd. unfold PyDict.of_pairs. by rewrite of_pairs_from. Qed.

Lemma get_NoDup k v d : NoDup d.*1 -> (k, v) ∈ d -> PyDict.get k d = Some v.
Proof.
  induction d as [|[k' v'] d IH]; simpl.
  - intros _ Hin. by apply elem_of_nil in Hin.
  - rewrite NoDup_cons. intros [Hk' Hnd] Hin.
    apply elem_of_cons in Hin as [[= -> ->] | Hin].
    + by rewrite decide_True.
    + case_decide; [|by apply IH]. subst.
      exfalso. apply Hk'. apply list_elem_of_fmap. by exists (k', v).
Qed.
End DictFacts.

(** ** Built-ins *)

Lemma enumerate_lookup {A} (xs : list A) i :
  enumerate xs !! i = (fun x => (Z.of_nat i, x)) <$> xs !! i.
Proof. unfold enumerate. by rewrite list_lookup_imap. Qed.

Lemma enumerate_keys {A} (xs : list A) :
  (enumerate xs).*1 = Z.of_nat <$> seq 0 (length xs).
Proof.
  apply list_eq. intros i.
  rewrite !list_lookup_fmap, enumerate_lookup.
  destruct (xs !! i) as [x|] eqn:Hx; simpl.
  - apply lookup_lt_Some in Hx.
    by rewrite (lookup_seq_lt _ _ _ Hx).
  - apply lookup_ge_None in Hx.
    by rewrite (lookup_seq_ge _ _ _ Hx).
Qed.

Lemma arange_NoDup n : NoDup (arange n).
Proof.
  unfold arange. apply NoDup_fmap_2; [apply Nat2Z.inj' | apply NoDup_seq].
Qed.

Lemma enumerate_NoDup {A} (xs : list A) : NoDup (enumerate xs).*1.
Proof. rewrite enumerate_keys. apply arange_NoDup. Qed.

(** The identifier map of [build] sends handle [i] to [user_ids[i]]. *)
Lemma get_enumerate (user_ids : list string) (i : nat) :
  PyDict.get (Z.of_nat i) (PyDict.of_pairs (enumerate user_ids)) = user_ids !! i.
Proof.
  rewrite of_pairs_NoDup by apply enumerate_NoDup.
  destruct (user_ids !! i) as [uid|] eqn:Hi.
  - apply get_NoDup; [apply enumerate_NoDup|].
    apply list_elem_of_lookup. exists i. by rewrite enumerate_lookup, Hi.
  - apply get_None_iff. rewrite enumerate_keys.
    intros Hin. apply list_elem_of_fmap in Hin as (j & Hj & Hin).
    apply Nat2Z.inj in Hj. subst j.
    apply elem_of_seq in Hin. apply lookup_ge_None in Hi. lia.
Qed.

(** ** The result loops *)
Section LoopFacts.
Context {F : Type} `{FloatOps F}.
Implicit Types (self : ANNIndex F) (E : gset string)
  (cands : list (Z * F)) (acc : list (string * F)).

Lemma surviving_cons self E c cands :
  surviving self E (c :: cands) =
    match report self E c with
    | Some r => r :: surviving self E cands
    | None => surviving self E cands
    end.
Proof. reflexivity. Qed.

(** The loop of [query] appends the eligible candidates in order and stops
    after the one that makes the list reach [k] entries. *)
Lemma query_loop_spec self E k cands acc :
  query_loop self E k cands acc =
    acc ++ take (Z.to_nat (Z.max 1 (k - Z.of_nat (length acc))))
                (surviving self E cands).
Proof.
  revert acc. induction cands as [|[h d] cands IH]; intros acc.
  - simpl. by rewrite take_nil, app_nil_r.
  - rewrite surviving_cons. unfold report. simpl.
    destruct (PyDict.get h (id_to_user self)) as [uid|]; [|apply IH].
    destruct (truthy uid && bool_decide (uid ∉ E)); [|apply IH].
    fold (similarity_of (space (config self)) d).
    case_bool_decide as Hk.
    + rewrite length_app in Hk. simpl in Hk.
      replace (Z.to_nat (Z.max 1 (k - Z.of_nat (length acc)))) with 1%nat by lia.
      simpl. by rewrite take_0.
    + rewrite IH. rewrite length_app in Hk |- *. simpl in Hk |- *.
      rewrite <- app_assoc. simpl. f_equal.
      replace (Z.to_nat (Z.max 1 (k - Z.of_nat (length acc))))
        with (S (Z.to_nat (Z.max 1 (k - Z.of_nat (length acc + 1))))) by lia.
      reflexivity.
Qed.

Lemma report_no_exclusion self c :
  report self ∅ c =
    match PyDict.get c.1 (id_to_user self) with
    | Some uid =>
        if truthy uid then Some (uid, similarity_of (space (config self)) c.2)
        else None
    | None => None
    end.
Proof.
  unfold report. destruct (PyDict.get _ _) as [uid|]; [|done].
  rewrite bool_decide_true by apply not_elem_of_empty.
  by rewrite andb_true_r.
Qed.

Lemma batch_row_loop_spec self cands acc :
  batch_row_loop self cands acc = acc ++ surviving self ∅ cands.
Proof.
  revert acc. induction cands as [|[h d] cands IH]; intros acc.
  - simpl. by rewrite app_nil_r.
  - rewrite surviving_cons, report_no_exclusion. simpl.
    destruct (PyDict.get h (id_to_user self)) as [uid|]; [|apply IH].
    destruct (truthy uid); [|apply IH].
    rewrite IH, <- app_assoc. reflexivity.
Qed.

Lemma batch_loop_spec self (rows : list (list Z * list F)) all_results :
  batch_loop self rows all_results =
    all_results ++ ((fun row => surviving self ∅ (zip row.1 row.2)) <$> rows).
Proof.
  revert all_results. induction rows as [|[ids ds] rows IH]; intros all_results.
  - simpl. by rewrite app_nil_r.
  - simpl. rewrite IH, batch_row_loop_spec, <- app_assoc. reflexivity.
Qed.

Lemma truthy_nonempty (s : string) : truthy s = true <-> s <> "".
Proof. destruct s; simpl; split; intros; congruence. Qed.

Lemma elem_of_surviving self E cands uid s :
  (uid, s) ∈ surviving self E cands <->
  exists h d, (h, d) ∈ cands /\ PyDict.get h (id_to_user self) = Some uid /\
              uid <> "" /\ (uid ∉ E) /\
              s = similarity_of (space (config self)) d.
Proof.
  unfold surviving. rewrite list_elem_of_omap. split.
  - intros ([h d] & Hin & Hr). exists h, d. unfold report in Hr. simpl in Hr.
    destruct (PyDict.get h (id_to_user self)) as [u|]; [|done].
    destruct (truthy u && bool_decide (u ∉ E)) eqn:Hc; [|done].
    apply andb_true_iff in Hc as [Ht He].
    apply truthy_nonempty in Ht. apply bool_decide_eq_true in He.
    by injection Hr as -> ->.
  - intros (h & d & Hin & Hg & Hne & HE & ->). exists (h, d). split; [done|].
    unfold report. simpl. rewrite Hg.
    apply truthy_nonempty in Hne. rewrite Hne.
    by rewrite bool_decide_true.
Qed.

Lemma eligible_iff self E (c : Z * F) :
  eligible self E c <->
  exists uid, PyDict.get c.1 (id_to_user self) = Some uid /\
              uid <> "" /\ uid ∉ E.
Proof.
  unfold eligible. destruct (PyDict.get c.1 (id_to_user self)) as [u|].
  - rewrite andb_True, bool_decide_spec, Is_true_true, truthy_nonempty.
    split; [intros [? ?]; by exists u | by intros (? & [= ->] & ? & ?)].
  - split; [done | by intros (? & ? & _)].
Qed.

Lemma length_surviving self E cands :
  length (surviving self E cands) = length (filter (eligible self E) cands).
Proof.
  induction cands as [|c cands IH]; [done|].
  rewrite surviving_cons, filter_cons. unfold report.
  destruct (decide (eligible self E c)) as [He|He]; unfold eligible in He;
    destruct (PyDict.get c.1 (id_to_user self)) as [uid|];
    try destruct (truthy uid && bool_decide (uid ∉ E));
    simpl in *; try done; by rewrite IH.
Qed.

Lemma elem_of_exclude_set_of exclude_ids uid :
  uid ∈ exclude_set_of exclude_ids <-> excluded exclude_ids uid.
Proof.
  destruct exclude_ids as [[|u l]|]; simpl.
  - rewrite elem_of_empty. split; [done|]. apply not_elem_of_nil.
  - by rewrite elem_of_union, elem_of_singleton, elem_of_list_to_set, elem_of_cons.
  - by rewrite elem_of_empty.
Qed.

Lemma exclude_len_size exclude_ids :
  exclude_len exclude_ids = exclusion_size exclude_ids.
Proof. by destruct exclude_ids as [[|u l]|]. Qed.
End LoopFacts.

(** ** Queries *)
Section QueryFacts.
Context {F : Type} `{FloatOps F}.
Variable knn_query :
  Hnsw.Index F -> list (list F) -> Z -> result (list (list Z) * list (list F)).
Implicit Types (self : ANNIndex F) (g : Hnsw.Index F).

Lemma query_unfold self g emb k E :
  index self = Some g ->
  query knn_query self emb k E =
    match knn_query g [emb] (request_size k E g) with
    | Err e => Err e
    | Ok (ids0 :: _, ds0 :: _) =>
        Ok (take (Z.to_nat (Z.max 1 k))
                 (surviving self (exclude_set_of E) (zip ids0 ds0)))
    | Ok _ => Err IndexError
    end.
Proof.
  intros Hg. unfold query, request_size. rewrite Hg, exclude_len_size.
  destruct (knn_query _ _ _) as [[[|ids0 ids] [|ds0 ds]]|e]; try done.
  rewrite query_loop_spec. simpl. do 3 f_equal. lia.
Qed.

Lemma query_returns self g emb k E ids0 ids ds0 ds :
  index self = Some g ->
  knn_query g [emb] (request_size k E g) = Ok (ids0 :: ids, ds0 :: ds) ->
  query knn_query self emb k E =
    Ok (take (Z.to_nat (Z.max 1 k))
             (surviving self (exclude_set_of E) (zip ids0 ds0))).
Proof. intros Hg Hknn. by rewrite (query_unfold _ g), Hknn. Qed.

Lemma query_inv self emb k E res :
  query knn_query self emb k E = Ok res ->
  exists g ids0 ids ds0 ds,
    index self = Some g /\
    knn_query g [emb] (request_size k E g) = Ok (ids0 :: ids, ds0 :: ds) /\
    res = take (Z.to_nat (Z.max 1 k))
               (surviving self (exclude_set_of E) (zip ids0 ds0)).
Proof.
  intros Hq. destruct (index self) as [g|] eqn:Hg.
  - rewrite (query_unfold _ g) in Hq by done.
    destruct (knn_query _ _ _) as [[[|ids0 ids] [|ds0 ds]]|e] eqn:Hknn; try done.
    injection Hq as <-. by exists g, ids0, ids, ds0, ds.
  - unfold query in Hq. by rewrite Hg in Hq.
Qed.

Lemma query_batch_unfold self g embs k :
  index self = Some g ->
  query_batch knn_query self embs k =
    match knn_query g embs k with
    | Err e => Err e
    | Ok (ids, ds) =>
        Ok ((fun row => surviving self ∅ (zip row.1 row.2)) <$> zip ids ds)
    end.
Proof.
  intros Hg. unfold query_batch. rewrite Hg.
  destruct (knn_query _ _ _) as [[ids ds]|e]; [|done].
  by rewrite batch_loop_spec.
Qed.

Lemma query_batch_inv self embs k res :
  query_batch knn_query self embs k = Ok res ->
  exists g ids ds,
    index self = Some g /\ knn_query g embs k = Ok (ids, ds) /\
    res = (fun row => surviving self ∅ (zip row.1 row.2)) <$> zip ids ds.
Proof.
  intros Hq. destruct (index self) as [g|] eqn:Hg.
  - rewrite (query_batch_unfold _ g) in Hq by done.
    destruct (knn_query _ _ _) as [[ids ds]|e] eqn:Hknn; [|done].
    injection Hq as <-. by exists g, ids, ds.
  - unfold query_batch in Hq. by rewrite Hg in Hq.
Qed.

(** C1, amended.  For [k >= 1], the result of [query] holds no excluded
    external ID, and its length is the minimum of [k] and the number of
    fetched candidates whose external ID is present in the identifier map,
    not empty and not excluded. *)
Theorem query_exclusion_and_length self g emb k E ids0 ids ds0 ds :
  1 <= k ->
  index self = Some g ->
  knn_query g [emb] (request_size k E g) = Ok (ids0 :: ids, ds0 :: ds) ->
  exists res,
    query knn_query self emb k E = Ok res /\
    (forall uid, excluded E uid -> uid ∉ res.*1) /\
    Z.of_nat (length res) =
      Z.min k (Z.of_nat (length (filter (eligible self (exclude_set_of E))
                                        (zip ids0 ds0)))).
Proof.
  intros Hk Hg Hknn. eexists. split; [by eapply query_returns|]. split.
  - intros uid Hex Hin. apply list_elem_of_fmap in Hin as ([u s] & -> & Hin).
    apply elem_of_take in Hin as (i & Hi & _).
    apply list_elem_of_lookup_2, elem_of_surviving in Hi
      as (h & d & _ & _ & _ & HE & _).
    apply HE. by apply elem_of_exclude_set_of.
  - rewrite length_take, length_surviving. lia.
Qed.

(** C6.  Every pair reported by [query] or [query_batch] stems from a
    fetched candidate [(handle, distance)] and carries the score
    [1 - distance] when the configured space is cosine and [-distance]
    for every other space. *)
Theorem score_conversion self :
  (forall emb k E res,
     query knn_query self emb k E = Ok res ->
     exists g ids0 ids ds0 ds,
       index self = Some g /\
       knn_query g [emb] (request_size k E g) = Ok (ids0 :: ids, ds0 :: ds) /\
       forall uid s, (uid, s) ∈ res ->
         exists h d, (h, d) ∈ zip ids0 ds0 /\
           PyDict.get h (id_to_user self) = Some uid /\
           s = if decide (space (config self) = "cosine")
               then fsub fone d else fneg d) /\
  (forall embs k res,
     query_batch knn_query self embs k = Ok res ->
     exists g ids ds,
       index self = Some g /\ knn_query g embs k = Ok (ids, ds) /\
       forall i row uid s, res !! i = Some row -> (uid, s) ∈ row ->
         exists ids_i ds_i h d,
           ids !! i = Some ids_i /\ ds !! i = Some ds_i /\
           (h, d) ∈ zip ids_i ds_i /\
           PyDict.get h (id_to_user self) = Some uid /\
           s = if decide (space (config self) = "cosine")
               then fsub fone d else fneg d).
Proof.
  split.
  - intros emb k E res Hq.
    apply query_inv in Hq as (g & ids0 & ids & ds0 & ds & Hg & Hknn & ->).
    exists g, ids0, ids, ds0, ds. do 2 (split; [done|]).
    intros uid s Hin. apply elem_of_take in Hin as (i & Hi & _).
    apply list_elem_of_lookup_2, elem_of_surviving in Hi
      as (h & d & Hin & Hget & _ & _ & ->).
    exists h, d. do 2 (split; [done|]).
    unfold similarity_of. by destruct (decide _); [rewrite bool_decide_true | rewrite bool_decide_false].
  - intros embs k res Hq.
    apply query_batch_inv in Hq as (g & ids & ds & Hg & Hknn & ->).
    exists g, ids, ds. do 2 (split; [done|]).
    intros i row uid s Hrow Hin.
    rewrite list_lookup_fmap in Hrow.
    destruct (zip ids ds !! i) as [[ids_i ds_i]|] eqn:Hz; [|done].
    injection Hrow as <-. apply lookup_zip_Some in Hz as [Hi Hd].
    apply elem_of_surviving in Hin as (h & d & Hin & Hget & _ & _ & ->).
    exists ids_i, ds_i, h, d. do 4 (split; [done|]).
    unfold similarity_of. by destruct (decide _); [rewrite bool_decide_true | rewrite bool_decide_false].
Qed.
Lemma length_filter_all {A} (P : A -> Prop) `{forall x, Decision (P x)} (l : list A) :
  length (filter P l) = length l <-> Forall P l.
Proof.
  split.
  - intros Hlen. apply Forall_forall. intros x Hx.
    destruct (decide (P x)) as [|Hn]; [done|].
    pose proof (length_filter_lt P l x Hx Hn). lia.
  - intros Hall. induction Hall as [|x l Hx Hall IH]; [done|].
    rewrite filter_cons, decide_True by done. simpl. by rewrite IH.
Qed.

Lemma ascending_zip `{!FloatOrder F} (ids : list Z) (ds : list F) :
  ascending ds -> StronglySorted (fun a b : Z * F => fle a.2 b.2) (zip ids ds).
Proof.
  intros Hs. apply Sorted_StronglySorted in Hs; [|intros a b c; apply fle_trans].
  revert ids. induction Hs as [|d ds Hs IH Hd]; intros [|h ids]; simpl;
    try by constructor.
  constructor; [apply IH|]. apply Forall_forall. intros [h' d'] Hin.
  apply elem_of_zip_r in Hin. rewrite Forall_forall in Hd. by apply Hd.
Qed.

Lemma similarity_of_antitone `{!FloatOrder F} space (a b : F) :
  fle a b -> fle (similarity_of space b) (similarity_of space a).
Proof.
  unfold similarity_of. case_bool_decide;
    [apply fsub_one_antitone | apply fneg_antitone].
Qed.

Lemma surviving_non_increasing `{!FloatOrder F} self E (cands : list (Z * F)) :
  StronglySorted (fun a b : Z * F => fle a.2 b.2) cands ->
  non_increasing (surviving self E cands).
Proof.
  unfold non_increasing.
  induction 1 as [|c cands Hs IH Hc]; [constructor|].
  rewrite surviving_cons. destruct (report self E c) as [[u s]|] eqn:Hr; [|done].
  constructor; [done|]. apply Forall_forall. intros [u' s'] Hin.
  apply elem_of_surviving in Hin as (h' & d' & Hin & _ & _ & _ & ->).
  rewrite Forall_forall in Hc. specialize (Hc _ Hin).
  unfold report in Hr. destruct (PyDict.get c.1 (id_to_user self)); [|done].
  destruct (_ && _); [|done]. injection Hr as _ <-. simpl.
  by apply similarity_of_antitone.
Qed.

Lemma non_increasing_take n (res : list (string * F)) :
  non_increasing res -> non_increasing (take n res).
Proof.
  unfold non_increasing. intros Hs.
  rewrite <- (take_drop n res) in Hs. by apply StronglySorted_app_1_l in Hs.
Qed.

(** C7.  When the graph delivers the distances of the fetched candidates
    in ascending order, [query] returns its pairs in non-increasing order
    of score. *)
Theorem query_non_increasing `{!FloatOrder F} self g emb k E ids0 ids ds0 ds :
  index self = Some g ->
  knn_query g [emb] (request_size k E g) = Ok (ids0 :: ids, ds0 :: ds) ->
  ascending ds0 ->
  exists res, query knn_query self emb k E = Ok res /\ non_increasing res.
Proof.
  intros Hg Hknn Hasc. eexists. split; [by eapply query_returns|].
  by apply non_increasing_take, surviving_non_increasing, ascending_zip.
Qed.

(** C10.  A pair reported by [query] or [query_batch] never carries the
    empty external ID: each one stems from a fetched candidate whose
    handle the identifier map translates to a non-empty ID.  In
    [query_batch] a candidate is reported exactly when that is so. *)
Theorem empty_id_omitted self :
  (forall emb k E res,
     query knn_query self emb k E = Ok res ->
     exists g ids0 ids ds0 ds,
       index self = Some g /\
       knn_query g [emb] (request_size k E g) = Ok (ids0 :: ids, ds0 :: ds) /\
       forall uid s, (uid, s) ∈ res ->
         uid <> "" /\
         exists h d, (h, d) ∈ zip ids0 ds0 /\
                     PyDict.get h (id_to_user self) = Some uid) /\
  (forall embs k res,
     query_batch knn_query self embs k = Ok res ->
     exists g ids ds,
       index self = Some g /\ knn_query g embs k = Ok (ids, ds) /\
       forall i row, res !! i = Some row ->
         exists ids_i ds_i,
           ids !! i = Some ids_i /\ ds !! i = Some ds_i /\
           forall uid, uid ∈ row.*1 <->
             uid <> "" /\
             exists h d, (h, d) ∈ zip ids_i ds_i /\
                         PyDict.get h (id_to_user self) = Some uid).
Proof.
  split.
  - intros emb k E res Hq.
    apply query_inv in Hq as (g & ids0 & ids & ds0 & ds & Hg & Hknn & ->).
    exists g, ids0, ids, ds0, ds. do 2 (split; [done|]).
    intros uid s Hin. apply elem_of_take in Hin as (i & Hi & _).
    apply list_elem_of_lookup_2, elem_of_surviving in Hi
      as (h & d & Hin & Hget & Hne & _ & _).
    split; [done|]. by exists h, d.
  - intros embs k res Hq.
    apply query_batch_inv in Hq as (g & ids & ds & Hg & Hknn & ->).
    exists g, ids, ds. do 2 (split; [done|]).
    intros i row Hrow. rewrite list_lookup_fmap in Hrow.
    destruct (zip ids ds !! i) as [[ids_i ds_i]|] eqn:Hz; [|done].
    injection Hrow as <-. apply lookup_zip_Some in Hz as [Hi Hd].
    exists ids_i, ds_i. do 2 (split; [done|]). simpl.
    intros uid. rewrite list_elem_of_fmap. split.
    + intros ([u s] & -> & Hin).
      apply elem_of_surviving in Hin as (h & d & Hin & Hget & Hne & _ & _).
      split; [done|]. by exists h, d.
    + intros (Hne & h & d & Hin & Hget).
      exists (uid, similarity_of (space (config self)) d). split; [done|].
      apply elem_of_surviving. exists h, d.
      repeat split; try done; apply not_elem_of_empty.
Qed.

(** C4, amended.  When the graph answers a [query_batch] call on [m]
    rows with [m] rows of [k] candidates, the result has [m] entries in
    row order; entry [i] holds, in order, the candidates of row [i] whose
    external ID is present in the identifier map and not empty: at most
    [k] pairs, and [k] of them exactly when every candidate of the row has
    such an ID. *)
Theorem query_batch_rows self g embs k ids ds :
  index self = Some g ->
  knn_query g embs k = Ok (ids, ds) ->
  length ids = length embs ->
  length ds = length embs ->
  Forall (fun row => Z.of_nat (length row) = k) ids ->
  Forall (fun row => Z.of_nat (length row) = k) ds ->
  exists res,
    query_batch knn_query self embs k = Ok res /\
    length res = length embs /\
    forall i ids_i ds_i,
      ids !! i = Some ids_i -> ds !! i = Some ds_i ->
      exists row,
        res !! i = Some row /\
        row = surviving self ∅ (zip ids_i ds_i) /\
        length row = length (filter (eligible self ∅) (zip ids_i ds_i)) /\
        Z.of_nat (length row) <= k /\
        (Z.of_nat (length row) = k <->
           Forall (eligible self ∅) (zip ids_i ds_i)).
Proof.
  intros Hg Hknn Hm Hm' Hids Hds. eexists.
  split; [by rewrite (query_batch_unfold _ g), Hknn|].
  split; [rewrite length_fmap, length_zip; lia|].
  intros i ids_i ds_i Hi Hd. eexists.
  split; [by rewrite list_lookup_fmap, (proj2 (lookup_zip_Some _ _ _ _ _) (conj Hi Hd))|].
  simpl. split; [done|]. split; [apply length_surviving|].
  rewrite Forall_forall in Hids. rewrite Forall_forall in Hds.
  pose proof (Hids _ (list_elem_of_lookup_2 _ _ _ Hi)) as Hki.
  pose proof (Hds _ (list_elem_of_lookup_2 _ _ _ Hd)) as Hkd.
  assert (Z.of_nat (length (zip ids_i ds_i)) = k) as Hz
    by (rewrite length_zip; lia).
  rewrite length_surviving. split.
  - pose proof (length_filter (eligible self ∅) (zip ids_i ds_i)). lia.
  - split.
    + intros Hl. apply (proj1 (length_filter_all _ _)). lia.
    + intros Hall. apply (proj2 (length_filter_all _ _)) in Hall. lia.
Qed.
End QueryFacts.

(** C5.  Whatever the graph search, [query] asks it for
    [min(k + |E| + 10, current count)] candidates, where a missing
    exclusion list counts for 0: the outcome of the call is what the loop
    makes of the answer to that one request, the graph's failure is the
    call's failure, and two searches that agree on that request give the
    same outcome. *)
Theorem query_requests_overfetch {F : Type} `{FloatOps F}
    (self : ANNIndex F) (g : Hnsw.Index F) emb k E requested :
  index self = Some g ->
  requested = Z.min (k + exclusion_size E + 10) (Hnsw.get_current_count g) ->
  (forall knn_query,
     query knn_query self emb k E =
       match knn_query g [emb] requested with
       | Err e => Err e
       | Ok (ids0 :: _, ds0 :: _) =>
           Ok (query_loop self (exclude_set_of E) k (zip ids0 ds0) [])
       | Ok _ => Err IndexError
       end) /\
  (forall knn_query knn_query',
     knn_query g [emb] requested = knn_query' g [emb] requested ->
     query knn_query self emb k E = query knn_query' self emb k E).
Proof.
  intros Hg ->.
  assert (forall knn_query,
     query knn_query self emb k E =
       match knn_query g [emb]
               (Z.min (k + exclusion_size E + 10) (Hnsw.get_current_count g)) with
       | Err e => Err e
       | Ok (ids0 :: _, ds0 :: _) =>
           Ok (query_loop self (exclude_set_of E) k (zip ids0 ds0) [])
       | Ok _ => Err IndexError
       end) as Hcall.
  { intros knn_query. unfold query. rewrite Hg, exclude_len_size.
    destruct (knn_query _ _ _) as [[[|ids0 ids] [|ds0 ds]]|e]; done. }
  split; [exact Hcall|].
  intros knn_query knn_query' Hsame. by rewrite !Hcall, Hsame.
Qed.


(** ** Building *)
(** Closes the case of a call that failed: the state and the error are read
    off the goal, and the index is either the old one or the new graph. *)
Ltac failed_build :=
  eexists _, _; split; [reflexivity|]; split; [try case_decide; discriminate|];
  first [ left; split; [reflexivity | first [assumption | reflexivity]]
        | right; eexists; do 4 (split; [reflexivity|]);
          split; [first [by left | by right]|];
          simpl; first [done | intros _; reflexivity] ].

Section BuildFacts.
Context {F : Type}.
Implicit Types (self : ANNIndex F) (g : Hnsw.Index F).

Lemma add_points_fresh (rows : list (list F * Z)) g :
  NoDup (rows.*2) ->
  (forall label, label ∈ rows.*2 -> label ∉ (Hnsw.h_items g).*1) ->
  Hnsw.get_current_count g + Z.of_nat (length rows) <= Hnsw.h_max_elements g ->
  2 <= Hnsw.h_M g ->
  Hnsw.add_points rows g =
    (Hnsw.with_items
       (Hnsw.h_items g ++ ((fun r => (r.2, r.1)) <$> rows)) g, Ok tt).
Proof.
  revert g. induction rows as [|[vec label] rows IH]; intros g Hnd Hfresh Hcap HM.
  - simpl. rewrite app_nil_r. by destruct g.
  - simpl in *. apply NoDup_cons in Hnd as [Hlabel Hnd].
    unfold Hnsw.add_point.
    rewrite (proj2 (get_None_iff label (Hnsw.h_items g)))
      by (apply Hfresh; left).
    rewrite !decide_False by lia.
    rewrite IH; simpl.
    + by rewrite <- app_assoc.
    + done.
    + intros l Hl. rewrite fmap_app. simpl. rewrite elem_of_app.
      intros [Hin | Hin%list_elem_of_singleton].
      * by apply (Hfresh l); [right|].
      * by subst.
    + unfold Hnsw.get_current_count in *. simpl.
      rewrite length_app. simpl. lia.
    + done.
Qed.

Lemma zip_swap {A B} (l : list A) (k : list B) :
  (fun r => (r.2, r.1)) <$> zip l k = zip k l.
Proof.
  revert k. induction l as [|a l IH]; intros [|b k]; simpl; try done.
  by rewrite IH.
Qed.

Lemma length_arange n : length (arange n) = n.
Proof. unfold arange. by rewrite length_fmap, length_seq. Qed.

Lemma rows_checked (d : Z) (embs : list (list F)) :
  forallb (fun row => bool_decide (Z.of_nat (length row) = d)) embs = true <->
  Forall (fun row => Z.of_nat (length row) = d) embs.
Proof.
  rewrite forallb_forall, Forall_forall. apply forall_proper. intros row.
  by rewrite bool_decide_eq_true, list_elem_of_In.
Qed.

Lemma add_items_empty g (embs : list (list F)) :
  Hnsw.h_initialized g = true ->
  Hnsw.h_items g = [] ->
  Forall (fun row => Z.of_nat (length row) = Hnsw.h_dim g) embs ->
  Z.of_nat (length embs) <= Hnsw.h_max_elements g ->
  embs <> [] ->
  2 <= Hnsw.h_M g ->
  Hnsw.add_items embs (arange (length embs)) g =
    (Hnsw.with_items (zip (arange (length embs)) embs) g, Ok tt).
Proof.
  intros Hinit Hitems Hrows Hcap Hne HM. unfold Hnsw.add_items.
  rewrite Hinit. simpl.
  rewrite (proj2 (rows_checked _ _) Hrows). simpl.
  rewrite bool_decide_true by apply length_arange. simpl.
  rewrite bool_decide_false by done.
  rewrite add_points_fresh.
  - by rewrite Hitems, zip_swap.
  - rewrite snd_zip by (rewrite length_arange; lia). apply arange_NoDup.
  - intros label _. rewrite Hitems. apply not_elem_of_nil.
  - unfold Hnsw.get_current_count. rewrite Hitems, length_zip, length_arange.
    simpl. lia.
  - done.
Qed.

(** With fewer than two links per element the first insertion fails, and
    nothing is inserted. *)
Lemma add_items_few_links g (embs : list (list F)) :
  Hnsw.h_initialized g = true ->
  Hnsw.h_items g = [] ->
  Forall (fun row => Z.of_nat (length row) = Hnsw.h_dim g) embs ->
  Z.of_nat (length embs) <= Hnsw.h_max_elements g ->
  embs <> [] ->
  Hnsw.h_M g = 0 \/ Hnsw.h_M g = 1 ->
  Hnsw.add_items embs (arange (length embs)) g =
    (g, Err (if decide (Hnsw.h_M g = 0) then Crashed
             else RuntimeError NotEnoughMemory)).
Proof.
  intros Hinit Hitems Hrows Hcap Hne HM. unfold Hnsw.add_items.
  rewrite Hinit. simpl.
  rewrite (proj2 (rows_checked _ _) Hrows). simpl.
  rewrite bool_decide_true by apply length_arange. simpl.
  rewrite bool_decide_false by done.
  destruct embs as [|row embs]; [done|]. simpl in *.
  unfold Hnsw.add_point, Hnsw.get_current_count. rewrite Hitems. simpl.
  rewrite decide_False by lia.
  destruct HM as [HM|HM]; rewrite HM; done.
Qed.

(** The outcome of [build]: it returns exactly on a buildable input, and
    then leaves [built_state]; no failure is a capacity failure, and a
    failed call has either left the index alone or allocated a new graph,
    which holds none of the rows or all of them. *)
Lemma build_outcome now (embs : list (list F)) user_ids self :
  (buildable self embs /\
   build now embs user_ids self = (built_state now embs user_ids self, Ok tt)) \/
  (~ buildable self embs /\
   exists self' e,
     build now embs user_ids self = (self', Err e) /\
     e <> RuntimeError CapacityExceeded /\
     (self' = self /\ Hnsw.valid_space (space (config self)) = false \/
      exists g, index self' = Some g /\
        config self' = config self /\
        dim self' = dim self /\
        metadata self' = metadata self /\
        (Hnsw.h_items g = [] \/
         Hnsw.h_items g = zip (arange (length embs)) embs) /\
        (Hnsw.h_initialized g = true ->
         Hnsw.h_max_elements g =
           Z.max (Z.of_nat (length embs)) (max_elements (config self))))).
Proof.
  unfold build, bind, read, lift, buildable. simpl.
  unfold Hnsw.new.
  destruct (Hnsw.valid_space (space (config self))) eqn:Hsp;
    [|right; split; [by intros (? & _) | failed_build]].
  simpl. unfold on_index at 1. simpl. unfold Hnsw.init_index. simpl.
  destruct (decide (_ \/ _ \/ _)) as [Hneg|Hpos];
    [right; split; [lia | failed_build]|].
  simpl. unfold on_index_partial. simpl.
  destruct (decide (Forall (fun row => Z.of_nat (length row) = dim self) embs))
    as [Hrows|Hrows]; cycle 1.
  { right. split; [tauto|].
    unfold Hnsw.add_items. simpl.
    destruct (forallb _ embs) eqn:Hcheck;
      [by apply rows_checked in Hcheck|].
    simpl. failed_build. }
  destruct (decide (embs = [])) as [->|Hne].
  { right. split; [tauto|]. simpl. failed_build. }
  destruct (decide (2 <= M (config self))) as [HM|HM]; cycle 1.
  { right. split; [lia|].
    rewrite add_items_few_links; simpl; [|done..|lia|done|lia].
    failed_build. }
  rewrite add_items_empty; simpl; [|done..|lia|done|done].
  unfold on_index. simpl. unfold Hnsw.set_ef. simpl.
  destruct (decide (ef_search (config self) < 0)) as [Hef|Hef];
    [right; split; [lia | failed_build]|].
  left. split; [repeat split; try done; lia|].
  rewrite of_pairs_NoDup by apply enumerate_NoDup. done.
Qed.

Lemma build_ok now (embs : list (list F)) user_ids self :
  buildable self embs ->
  build now embs user_ids self = (built_state now embs user_ids self, Ok tt).
Proof.
  intros Hb. by destruct (build_outcome now embs user_ids self) as [[_ ?]|[? _]].
Qed.

Lemma build_inv now (embs : list (list F)) user_ids self self' :
  build now embs user_ids self = (self', Ok tt) ->
  buildable self embs /\ self' = built_state now embs user_ids self.
Proof.
  intros Hbuild.
  destruct (build_outcome now embs user_ids self)
    as [[Hb Heq]|[_ (s & e & Heq & _)]]; rewrite Heq in Hbuild.
  - by injection Hbuild as <-.
  - done.
Qed.

(** [build] call by call: the library calls in their order, with the
    attributes each failure leaves assigned. *)
Lemma build_unfold now (embs : list (list F)) user_ids self :
  build now embs user_ids self =
    match Hnsw.new (space (config self)) (dim self) with
    | Err e => (self, Err e)
    | Ok g0 =>
        match Hnsw.init_index
                (Z.max (Z.of_nat (length embs)) (max_elements (config self)))
                (ef_construction (config self)) (M (config self)) g0 with
        | Err e =>
            ({| config := config self; dim := dim self; index := Some g0;
                id_to_user := id_to_user self; user_to_id := user_to_id self;
                metadata := metadata self |}, Err e)
        | Ok g1 =>
            let mapped g :=
              {| config := config self; dim := dim self; index := Some g;
                 id_to_user := PyDict.of_pairs (enumerate user_ids);
                 user_to_id :=
                   PyDict.of_pairs
                     ((fun iu => (iu.2, iu.1)) <$> enumerate user_ids);
                 metadata := metadata self |} in
            match Hnsw.add_items embs (arange (length embs)) g1 with
            | (g2, Err e) => (mapped g2, Err e)
            | (g2, Ok _) =>
                match Hnsw.set_ef (ef_search (config self)) g2 with
                | Err e => (mapped g2, Err e)
                | Ok g3 =>
                    ({| config := config self; dim := dim self;
                        index := Some g3;
                        id_to_user := PyDict.of_pairs (enumerate user_ids);
                        user_to_id :=
                          PyDict.of_pairs
                            ((fun iu => (iu.2, iu.1)) <$> enumerate user_ids);
                        metadata :=
                          [ ("n_elements", JInt (Z.of_nat (length embs)));
                            ("dim", JInt (dim self));
                            ("space", JStr (space (config self)));
                            ("built_at", JStr now);
                            ("ef_construction",
                             JInt (ef_construction (config self)));
                            ("M", JInt (M (config self))) ] |}, Ok tt)
                end
            end
        end
    end.
Proof.
  unfold build, bind, read, lift. simpl.
  destruct (Hnsw.new _ _) as [g0|e]; [|done]. simpl.
  unfold on_index at 1. simpl.
  destruct (Hnsw.init_index _ _ _ g0) as [g1|e]; [|done]. simpl.
  unfold on_index_partial. simpl.
  destruct (Hnsw.add_items _ _ g1) as [g2 [[]|e]]; [|done]. simpl.
  unfold on_index. simpl.
  destruct (Hnsw.set_ef _ g2) as [g3|e]; done.
Qed.

(** An insertion fails for lack of a slot or of links only. *)
Lemma add_points_errors (rows : list (list F * Z)) g g' e :
  Hnsw.add_points rows g = (g', Err e) ->
  e = RuntimeError CapacityExceeded \/ e = Crashed \/
  e = RuntimeError NotEnoughMemory.
Proof.
  revert g. induction rows as [|[vec label] rows IH]; intros g; simpl; [done|].
  unfold Hnsw.add_point. destruct (PyDict.get _ _); [apply IH|].
  repeat case_decide; try (intros [= _ <-]; auto); apply IH.
Qed.

(** The dimension error is raised for a row of another length only. *)
Lemma build_dimension_error now (embs : list (list F)) user_ids self :
  (build now embs user_ids self).2 = Err (RuntimeError WrongDimensionality) ->
  ~ Forall (fun row => Z.of_nat (length row) = dim self) embs.
Proof.
  rewrite build_unfold. unfold Hnsw.new.
  destruct (Hnsw.valid_space _); [|done]. simpl.
  unfold Hnsw.init_index. simpl. case_decide; [done|]. simpl.
  unfold Hnsw.add_items. simpl.
  destruct (forallb _ embs) eqn:Hcheck; cycle 1.
  { intros _ Hall. apply rows_checked in Hall. congruence. }
  simpl. rewrite bool_decide_true by apply length_arange. simpl.
  case_bool_decide; [done|].
  destruct (Hnsw.add_points _ _) as [g2 [[]|e]] eqn:Hadd; simpl.
  - unfold Hnsw.set_ef. by case_decide.
  - apply add_points_errors in Hadd as [->|[->| ->]]; done.
Qed.

(** [build] passes the external IDs to no call that can fail: the result
    and the graph of a call are those of the call with any other list. *)
Lemma build_ids_irrelevant now (embs : list (list F)) user_ids user_ids' self :
  (build now embs user_ids self).2 = (build now embs user_ids' self).2 /\
  index (build now embs user_ids self).1 =
    index (build now embs user_ids' self).1.
Proof.
  rewrite !build_unfold.
  destruct (Hnsw.new _ _) as [g0|e]; [|done].
  destruct (Hnsw.init_index _ _ _ g0) as [g1|e]; [|done].
  destruct (Hnsw.add_items _ _ g1) as [g2 [[]|e]]; [|done].
  destruct (Hnsw.set_ef _ g2) as [g3|e]; done.
Qed.

(** The configured [max_elements] reaches the library through
    [max(N, max_elements)] only. *)
Lemma build_max_elements_irrelevant now (embs : list (list F)) user_ids self m :
  max_elements (config self) <= Z.of_nat (length embs) ->
  m <= Z.of_nat (length embs) ->
  (build now embs user_ids (with_max_elements m self)).2 =
    (build now embs user_ids self).2 /\
  index (build now embs user_ids (with_max_elements m self)).1 =
    index (build now embs user_ids self).1.
Proof.
  intros Hcfg Hm. rewrite !build_unfold. simpl.
  rewrite !Z.max_l by done.
  destruct (Hnsw.new _ _) as [g0|e]; [|done].
  destruct (Hnsw.init_index _ _ _ g0) as [g1|e]; [|done].
  destruct (Hnsw.add_items _ _ g1) as [g2 [[]|e]]; [|done].
  destruct (Hnsw.set_ef _ g2) as [g3|e]; done.
Qed.

(** C8.  [build] never fails for lack of capacity; a graph that the call
    allocates and initialises has capacity
    [max(N, configured max_elements)]; a configured [max_elements] at or
    below [N] has no part in the outcome: with any other value up to [N],
    [N] itself included, the call raises or returns alike, with the same
    graph; and a call that returns leaves a graph of that capacity holding
    the [N] rows. *)
Theorem build_capacity now (embs : list (list F)) user_ids self :
  (build now embs user_ids self).2 <> Err (RuntimeError CapacityExceeded) /\
  (index (build now embs user_ids self).1 = index self \/
   exists g,
     index (build now embs user_ids self).1 = Some g /\
     (Hnsw.h_initialized g = true ->
      Hnsw.h_max_elements g =
        Z.max (Z.of_nat (length embs)) (max_elements (config self)))) /\
  (forall m,
     max_elements (config self) <= Z.of_nat (length embs) ->
     m <= Z.of_nat (length embs) ->
     (build now embs user_ids (with_max_elements m self)).2 =
       (build now embs user_ids self).2 /\
     index (build now embs user_ids (with_max_elements m self)).1 =
       index (build now embs user_ids self).1) /\
  (forall self',
     build now embs user_ids self = (self', Ok tt) ->
     exists g,
       index self' = Some g /\
       Hnsw.h_max_elements g =
         Z.max (Z.of_nat (length embs)) (max_elements (config self)) /\
       Hnsw.get_current_count g = Z.of_nat (length embs)).
Proof.
  split; [|split; [|split]].
  - destruct (build_outcome now embs user_ids self)
      as [[_ Heq]|[_ (s & e & Heq & He & _)]]; rewrite Heq; simpl; congruence.
  - destruct (build_outcome now embs user_ids self)
      as [[_ Heq]|[_ (s & e & Heq & _ & Hidx)]]; rewrite Heq; simpl.
    + right. by exists (built_graph self embs).
    + destruct Hidx as [[-> _]|(g & Hg & _ & _ & _ & _ & Hcap)]; [by left|].
      right. by exists g.
  - intros m Hcfg Hm. by apply build_max_elements_irrelevant.
  - intros self' Hbuild. apply build_inv in Hbuild as [_ ->].
    exists (built_graph self embs). do 2 (split; [done|]).
    unfold Hnsw.get_current_count. simpl.
    rewrite length_zip, length_arange. lia.
Qed.

(** C3, amended.  A row count that differs from the number of external
    IDs does not make [build] fail: the call raises or returns exactly as
    it does with any other list of IDs, one of the right length included,
    and with the same graph; when it returns it has replaced the index by
    a graph holding all [N] rows, and the identifier map translates handle
    [i] to [user_ids[i]] for the positions [i] that [user_ids] has, and no
    other handle. *)
Theorem build_ignores_id_count now (embs : list (list F)) user_ids self :
  length embs <> length user_ids ->
  (forall user_ids',
     (build now embs user_ids self).2 = (build now embs user_ids' self).2 /\
     index (build now embs user_ids self).1 =
       index (build now embs user_ids' self).1) /\
  (forall self',
     build now embs user_ids self = (self', Ok tt) ->
     exists g,
       index self' = Some g /\
       Hnsw.get_current_count g = Z.of_nat (length embs) /\
       (forall i : nat,
          PyDict.get (Z.of_nat i) (id_to_user self') = user_ids !! i) /\
       (forall h, h < 0 -> PyDict.get h (id_to_user self') = None)).
Proof.
  intros _. split; [intros user_ids'; apply build_ids_irrelevant|].
  intros self' Hbuild. apply build_inv in Hbuild as [_ ->].
  exists (built_graph self embs).
  split; [done|]. split; [|split].
  - unfold Hnsw.get_current_count. simpl.
    rewrite length_zip, length_arange. lia.
  - intros i. simpl. rewrite <- get_enumerate.
    by rewrite of_pairs_NoDup by apply enumerate_NoDup.
  - intros h Hh. simpl. apply get_None_iff. rewrite enumerate_keys.
    intros Hin. apply list_elem_of_fmap in Hin as (j & -> & _). lia.
Qed.
End BuildFacts.



(** ** Saving and loading *)
Section PersistFacts.
Context {F : Type}.
Variable makedirs : string -> gmap string (file F) -> result unit.
Implicit Types (self : ANNIndex F) (g : Hnsw.Index F)
  (fs : gmap string (file F)).

Lemma py_int_str z : py_int (py_str z) = Ok z.
Proof.
  unfold py_int, py_str. rewrite NilZero.isi.
  - by rewrite DecimalZ.of_to.
  - destruct z; simpl; try done.
    intros [= Hp]. by apply (Unsigned.to_uint_nonnil p).
  - destruct z; simpl; try done.
    intros [= Hp]. by apply (Unsigned.to_uint_nonnil p).
Qed.

Lemma py_str_inj z z' : py_str z = py_str z' -> z = z'.
Proof.
  intros Heq. pose proof (py_int_str z) as Hz.
  rewrite Heq, py_int_str in Hz. by injection Hz.
Qed.

Lemma int_keys_str (d : list (Z * string)) :
  int_keys ((fun kv => (py_str kv.1, kv.2)) <$> d) = Ok d.
Proof.
  induction d as [|[k v] d IH]; [done|].
  rewrite fmap_cons. cbn [int_keys fst snd]. by rewrite py_int_str, IH.
Qed.

Lemma str_keys_NoDup (d : list (Z * string)) :
  NoDup d.*1 -> NoDup ((fun kv => (py_str kv.1, kv.2)) <$> d).*1.
Proof.
  intros Hnd. rewrite <- list_fmap_compose.
  change (NoDup ((py_str ∘ fst) <$> d)).
  rewrite list_fmap_compose.
  apply NoDup_fmap_2; [intros z z'; apply py_str_inj | done].
Qed.

Lemma os_path_join_distinct path :
  os_path_join path "index.bin" <> os_path_join path "mappings.json".
Proof.
  unfold os_path_join. case_bool_decide; [done|].
  destruct (ends_with_slash path).
  - intros Heq. by apply String.app_inj in Heq.
  - intros Heq. by apply String.app_inj, String.app_inj in Heq.
Qed.

Lemma save_ok path self g fs :
  index self = Some g ->
  Hnsw.h_initialized g = true ->
  makedirs path fs = Ok tt ->
  save makedirs path self fs = (saved_dir path self g fs, Ok tt).
Proof.
  intros Hg Hinit Hdir. unfold save, save_index. by rewrite Hg, Hdir, Hinit.
Qed.

(** A [save] that returns has found or made its directory and has written
    the two files. *)
Lemma save_inv path self fs fs' :
  save makedirs path self fs = (fs', Ok tt) ->
  exists g,
    index self = Some g /\ Hnsw.h_initialized g = true /\
    makedirs path fs = Ok tt /\ fs' = saved_dir path self g fs.
Proof.
  unfold save, save_index. destruct (index self) as [g|]; [|done].
  destruct (makedirs path fs) as [[]|e]; [|done].
  destruct (Hnsw.h_initialized g) eqn:Hinit; [|done].
  intros [= <-]. by exists g.
Qed.


(** [load] succeeds when the sidecar holds an identifier map with integer
    keys, the dimension [d] and space [sp] it settles on (recorded, or else
    the controller's own) are acceptable, and the binary holds a graph of
    that dimension and space. *)
Lemma load_ok path fs self doc items pairs (s : Hnsw.Index F) d sp :
  fs !! os_path_join path "mappings.json" = Some (MappingsJson doc) ->
  sc_id_to_user doc = Some items ->
  int_keys (PyDict.of_pairs items) = Ok pairs ->
  (PyDict.get "dim" (default [] (PyDict.of_pairs <$> sc_metadata doc)) = None
     /\ d = dim self \/
   PyDict.get "dim" (default [] (PyDict.of_pairs <$> sc_metadata doc))
     = Some (JInt d)) ->
  (PyDict.get "space" (default [] (PyDict.of_pairs <$> sc_metadata doc)) = None
     /\ sp = space (config self) \/
   PyDict.get "space" (default [] (PyDict.of_pairs <$> sc_metadata doc))
     = Some (JStr sp)) ->
  Hnsw.valid_space sp = true ->
  fs !! os_path_join path "index.bin" = Some (IndexBin s) ->
  Hnsw.h_dim s = d ->
  Hnsw.h_space s = sp ->
  0 <= ef_search (config self) ->
  load path fs self =
    (loaded_state self sp d s pairs
       (default [] (PyDict.of_pairs <$> sc_metadata doc)), Ok tt).
Proof.
  intros Hfile Hitems Hkeys Hdim Hspace Hsp Hbin Hsd Hss Hef.
  unfold load, bind, lift, read, json_load. rewrite Hfile. simpl.
  rewrite Hitems. simpl. rewrite Hkeys. simpl.
  assert (match PyDict.get "dim" (default [] (PyDict.of_pairs <$> sc_metadata doc)) with
          | Some (JInt z) => Ok z
          | Some _ => Err TypeError
          | None => Ok (dim self)
          end = Ok d) as ->
    by (destruct Hdim as [[-> ->]| ->]; done).
  simpl.
  assert (match PyDict.get "space" (default [] (PyDict.of_pairs <$> sc_metadata doc)) with
          | Some (JStr z) => Ok z
          | Some _ => Err TypeError
          | None => Ok (space (config self))
          end = Ok sp) as ->
    by (destruct Hspace as [[-> ->]| ->]; done).
  simpl. unfold Hnsw.new. rewrite Hsp. simpl.
  unfold on_index at 1. simpl. unfold load_index. rewrite Hbin. simpl.
  unfold on_index. simpl. unfold Hnsw.set_ef. rewrite decide_False by lia.
  reflexivity.
Qed.

(** [load] of what [save] wrote for a built controller. *)
Lemma load_saved now (embs : list (list F)) user_ids self0 path fs other :
  buildable self0 embs ->
  0 <= ef_search (config other) ->
  load path
    (saved_dir path (built_state now embs user_ids self0)
       (built_graph self0 embs) fs) other =
    ({| config := config other;
        dim := dim self0;
        index :=
          Some (with_ef (ef_search (config other)) (built_graph self0 embs));
        id_to_user := id_to_user (built_state now embs user_ids self0);
        user_to_id := user_to_id (built_state now embs user_ids self0);
        metadata := metadata (built_state now embs user_ids self0) |}, Ok tt).
Proof.
  intros (Hsp & Hefc & HM & Hefs & Hne & Hrows) Hef.
  assert (NoDup ((fun kv : Z * string => (py_str kv.1, kv.2))
                   <$> enumerate user_ids).*1) as Hnd
    by apply str_keys_NoDup, enumerate_NoDup.
  rewrite (load_ok path _ other (saved_sidecar (built_state now embs user_ids self0))
             (PyDict.of_pairs
                ((fun kv : Z * string => (py_str kv.1, kv.2)) <$> enumerate user_ids))
             (enumerate user_ids) (built_graph self0 embs)
             (dim self0) (space (config self0))).
  - unfold loaded_state. f_equal. simpl.
    rewrite !(of_pairs_NoDup (enumerate user_ids)) by apply enumerate_NoDup.
    reflexivity.
  - apply lookup_insert_eq.
  - reflexivity.
  - rewrite (of_pairs_NoDup (_ <$> enumerate user_ids)) by done.
    rewrite (of_pairs_NoDup (_ <$> enumerate user_ids)) by done.
    apply int_keys_str.
  - right. reflexivity.
  - right. reflexivity.
  - done.
  - unfold saved_dir.
    rewrite lookup_insert_ne by (apply not_eq_sym, os_path_join_distinct).
    apply lookup_insert_eq.
  - reflexivity.
  - reflexivity.
  - done.
Qed.
End PersistFacts.

Section RoundTrip.
Context {F : Type} `{FloatOps F}.
Variable knn_query :
  Hnsw.Index F -> list (list F) -> Z -> result (list (list Z) * list (list F)).
Variable makedirs : string -> gmap string (file F) -> result unit.
Implicit Types (self : ANNIndex F) (fs : gmap string (file F)).

Lemma surviving_ext self self' E (cands : list (Z * F)) :
  id_to_user self' = id_to_user self ->
  space (config self') = space (config self) ->
  surviving self' E cands = surviving self E cands.
Proof.
  intros Hmap Hspace. unfold surviving. f_equal.
  unfold report. by rewrite Hmap, Hspace.
Qed.

(** The answers depend on the controller through its graph, its
    identifier map and its configured space only. *)
Lemma query_ext self self' :
  index self' = index self ->
  id_to_user self' = id_to_user self ->
  space (config self') = space (config self) ->
  (forall emb k E,
     query knn_query self' emb k E = query knn_query self emb k E) /\
  (forall embs k,
     query_batch knn_query self' embs k = query_batch knn_query self embs k).
Proof.
  intros Hidx Hmap Hspace. split.
  - intros emb k E. destruct (index self) as [g|] eqn:Hg.
    + rewrite !(query_unfold _ _ g) by congruence.
      destruct (knn_query _ _ _) as [[[|ids0 ids] [|ds0 ds]]|e]; try done.
      by rewrite (surviving_ext self self').
    + unfold query. by rewrite Hidx, Hg.
  - intros embs k. destruct (index self) as [g|] eqn:Hg.
    + rewrite !(query_batch_unfold _ _ g) by congruence.
      destruct (knn_query _ _ _) as [[ids ds]|e]; [|done].
      f_equal. apply list_fmap_ext. intros i row _.
      by rewrite (surviving_ext self self').
    + unfold query_batch. by rewrite Hidx, Hg.
Qed.

(** X18.  After a successful [build] and a successful [save] to a
    directory, [load] of the directory into a fresh controller succeeds,
    and when the fresh controller is configured with the same similarity
    space and the same [ef_search] as the original, it answers every
    [query] and [query_batch] call exactly as the original does. *)
Theorem round_trip_same_configuration now embs user_ids self0 self path fs fs'
    cfg' dim' :
  build now embs user_ids self0 = (self, Ok tt) ->
  save makedirs path self fs = (fs', Ok tt) ->
  space (config (new_ANNIndex (F:=F) cfg' dim')) = space (config self) ->
  ef_search (config (new_ANNIndex (F:=F) cfg' dim')) = ef_search (config self) ->
  exists loaded,
    load path fs' (new_ANNIndex cfg' dim') = (loaded, Ok tt) /\
    (forall emb k E,
       query knn_query loaded emb k E = query knn_query self emb k E) /\
    (forall embs' k,
       query_batch knn_query loaded embs' k = query_batch knn_query self embs' k).
Proof.
  intros Hbuild Hsave Hspace Hef.
  apply build_inv in Hbuild as [Hb ->].
  apply save_inv in Hsave as (g & [= <-] & _ & _ & ->).
  eexists. split.
  - apply load_saved; [done|]. rewrite Hef.
    destruct Hb as (_ & _ & _ & Hefs & _). done.
  - apply query_ext; simpl in *.
    + unfold with_ef, built_graph. simpl. by rewrite Hef.
    + done.
    + done.
Qed.
End RoundTrip.

Section LoadFacts.
Context {F : Type}.
Implicit Types (self : ANNIndex F) (fs : gmap string (file F)).

(** C9, amended.  [load] fails, leaving the controller as it was, when
    [mappings.json] is absent, is not readable as JSON, or lacks the
    [id_to_user] member.  When the metadata lacks the recorded dimension
    and similarity space, [load] does not fail on that account: it goes
    on with the controller's current dimension and configured space in
    their place, and succeeds when the binary holds a graph of that
    dimension and space. *)
Theorem load_sidecar_cases path fs self :
  (fs !! os_path_join path "mappings.json" = None ->
   load path fs self =
     (self, Err (FileNotFoundError (os_path_join path "mappings.json")))) /\
  (forall f,
     fs !! os_path_join path "mappings.json" = Some f ->
     (forall doc, f <> MappingsJson doc) ->
     load path fs self = (self, Err JSONDecodeError)) /\
  (forall doc,
     fs !! os_path_join path "mappings.json" = Some (MappingsJson doc) ->
     sc_id_to_user doc = None ->
     load path fs self = (self, Err (KeyError "id_to_user"))) /\
  (forall doc items pairs s,
     fs !! os_path_join path "mappings.json" = Some (MappingsJson doc) ->
     sc_id_to_user doc = Some items ->
     int_keys (PyDict.of_pairs items) = Ok pairs ->
     PyDict.get "dim" (default [] (PyDict.of_pairs <$> sc_metadata doc)) = None ->
     PyDict.get "space" (default [] (PyDict.of_pairs <$> sc_metadata doc)) = None ->
     Hnsw.valid_space (space (config self)) = true ->
     0 <= ef_search (config self) ->
     fs !! os_path_join path "index.bin" = Some (IndexBin s) ->
     Hnsw.h_dim s = dim self ->
     Hnsw.h_space s = space (config self) ->
     load path fs self =
       (loaded_state self (space (config self)) (dim self) s pairs
          (default [] (PyDict.of_pairs <$> sc_metadata doc)), Ok tt)).
Proof.
  repeat split.
  - intros Hnone. unfold load, bind, lift, json_load. by rewrite Hnone.
  - intros f Hf Hnot. unfold load, bind, lift, json_load. rewrite Hf.
    destruct f as [doc| |g]; [by destruct (Hnot doc)|done..].
  - intros doc Hf Hnone. unfold load, bind, lift, json_load.
    rewrite Hf. simpl. by rewrite Hnone.
  - intros doc items pairs s Hf Hitems Hkeys Hdim Hspace Hsp Hef Hbin Hsd Hss.
    eapply load_ok; eauto.
Qed.
End LoadFacts.

(** ** The concrete instance at work *)

Import Exact.

#[export] Instance Q_order : FloatOrder Q.
Proof.
  split; simpl.
  - intros a b c. apply Qle_trans.
  - intros a b Hab. unfold Qminus.
    apply Qplus_le_compat; [apply Qle_refl | by apply Qopp_le_compat].
  - intros a b Hab. by apply Qopp_le_compat.
Qed.

(** [query_requests_overfetch] on a worked input. *)
Lemma query_requests_overfetch_witness :
  index Exact.two_profiles = Some (built_graph Exact.fresh2 [Exact.e1; Exact.e2]) /\
  2 = Z.min (1 + exclusion_size (Some ["a"]) + 10)
            (Hnsw.get_current_count (built_graph Exact.fresh2 [Exact.e1; Exact.e2])) /\
  (forall knn_query,
     query knn_query Exact.two_profiles Exact.e1 1 (Some ["a"]) =
       match knn_query (built_graph Exact.fresh2 [Exact.e1; Exact.e2]) [Exact.e1] 2 with
       | Err e => Err e
       | Ok (ids0 :: _, ds0 :: _) =>
           Ok (query_loop Exact.two_profiles (exclude_set_of (Some ["a"])) 1
                 (zip ids0 ds0) [])
       | Ok _ => Err IndexError
       end) /\
  (forall knn_query knn_query',
     knn_query (built_graph Exact.fresh2 [Exact.e1; Exact.e2]) [Exact.e1] 2
     = knn_query' (built_graph Exact.fresh2 [Exact.e1; Exact.e2]) [Exact.e1] 2 ->
     query knn_query Exact.two_profiles Exact.e1 1 (Some ["a"])
     = query knn_query' Exact.two_profiles Exact.e1 1 (Some ["a"])).
Proof.
  assert (index Exact.two_profiles
          = Some (built_graph Exact.fresh2 [Exact.e1; Exact.e2])) as Hg
    by reflexivity.
  assert (2 = Z.min (1 + exclusion_size (Some ["a"]) + 10)
                (Hnsw.get_current_count
                   (built_graph Exact.fresh2 [Exact.e1; Exact.e2]))) as Hk
    by reflexivity.
  do 2 (split; [assumption|]).
  exact (query_requests_overfetch Exact.two_profiles _ Exact.e1 1 (Some ["a"]) 2
           Hg Hk).
Defined.

(** [query_exclusion_and_length] on a worked input. *)
Lemma query_exclusion_and_length_witness :
  1 <= 1 /\
  index Exact.two_profiles = Some (built_graph Exact.fresh2 [Exact.e1; Exact.e2]) /\
  Exact.knn_query (built_graph Exact.fresh2 [Exact.e1; Exact.e2]) [Exact.e1]
    (request_size 1 (Some ["a"]) (built_graph Exact.fresh2 [Exact.e1; Exact.e2]))
    = Ok ([0; 1] :: [], [0%Q; 1%Q] :: []) /\
  exists res,
    query Exact.knn_query Exact.two_profiles Exact.e1 1 (Some ["a"]) = Ok res /\
    (forall uid, excluded (Some ["a"]) uid -> uid ∉ res.*1) /\
    Z.of_nat (length res) =
      Z.min 1 (Z.of_nat (length (filter (eligible Exact.two_profiles
                                           (exclude_set_of (Some ["a"])))
                                        (zip [0; 1] [0%Q; 1%Q])))).
Proof.
  assert (1 <= 1) as Hk by lia.
  assert (index Exact.two_profiles
          = Some (built_graph Exact.fresh2 [Exact.e1; Exact.e2])) as Hg
    by reflexivity.
  assert (Exact.knn_query (built_graph Exact.fresh2 [Exact.e1; Exact.e2])
            [Exact.e1]
            (request_size 1 (Some ["a"])
               (built_graph Exact.fresh2 [Exact.e1; Exact.e2]))
          = Ok ([0; 1] :: [], [0%Q; 1%Q] :: [])) as Hknn
    by (vm_compute; reflexivity).
  do 3 (split; [assumption|]).
  exact (query_exclusion_and_length Exact.knn_query Exact.two_profiles _
           Exact.e1 1 (Some ["a"]) [0; 1] [] [0%Q; 1%Q] [] Hk Hg Hknn).
Defined.

(** C1 as stated fails: the only fetched candidate is not excluded, yet the
    result is empty, because its external ID is the empty string. *)
Lemma query_length_counterexample :
  index Exact.blank_profile = Some (built_graph Exact.fresh2 [Exact.e1]) /\
  Exact.knn_query (built_graph Exact.fresh2 [Exact.e1]) [Exact.e1]
    (request_size 1 None (built_graph Exact.fresh2 [Exact.e1]))
    = Ok ([[0]], [[0%Q]]) /\
  exists res,
    query Exact.knn_query Exact.blank_profile Exact.e1 1 None = Ok res /\
    Z.of_nat (length res) <>
      Z.min 1 (Z.of_nat (length (filter (non_excluded Exact.blank_profile
                                           (exclude_set_of None))
                                        (zip [0] [0%Q])))).
Proof.
  split; [reflexivity|]. split; [vm_compute; reflexivity|].
  exists []. split; [vm_compute; reflexivity|]. vm_compute. discriminate.
Qed.

(** [score_conversion] on a worked input. *)
Lemma score_conversion_witness :
  (query Exact.knn_query Exact.l2_profiles Exact.e1 2 None
     = Ok [("a", 0%Q); ("b", (-2)%Q)] /\
   exists g ids0 ids ds0 ds,
     index Exact.l2_profiles = Some g /\
     Exact.knn_query g [Exact.e1] (request_size 2 None g)
       = Ok (ids0 :: ids, ds0 :: ds) /\
     forall uid s, (uid, s) ∈ [("a", 0%Q); ("b", (-2)%Q)] ->
       exists h d, (h, d) ∈ zip ids0 ds0 /\
         PyDict.get h (id_to_user Exact.l2_profiles) = Some uid /\
         s = if decide (space (config Exact.l2_profiles) = "cosine")
             then fsub fone d else fneg d) /\
  (query_batch Exact.knn_query Exact.two_profiles [Exact.e1; Exact.e2] 2
     = Ok [[("a", 1%Q); ("b", 0%Q)]; [("b", 1%Q); ("a", 0%Q)]] /\
   exists g ids ds,
     index Exact.two_profiles = Some g /\
     Exact.knn_query g [Exact.e1; Exact.e2] 2 = Ok (ids, ds) /\
     forall i row uid s,
       [[("a", 1%Q); ("b", 0%Q)]; [("b", 1%Q); ("a", 0%Q)]] !! i = Some row ->
       (uid, s) ∈ row ->
       exists ids_i ds_i h d,
         ids !! i = Some ids_i /\ ds !! i = Some ds_i /\
         (h, d) ∈ zip ids_i ds_i /\
         PyDict.get h (id_to_user Exact.two_profiles) = Some uid /\
         s = if decide (space (config Exact.two_profiles) = "cosine")
             then fsub fone d else fneg d).
Proof.
  assert (query Exact.knn_query Exact.l2_profiles Exact.e1 2 None
          = Ok [("a", 0%Q); ("b", (-2)%Q)]) as Hq by (vm_compute; reflexivity).
  assert (query_batch Exact.knn_query Exact.two_profiles [Exact.e1; Exact.e2] 2
          = Ok [[("a", 1%Q); ("b", 0%Q)]; [("b", 1%Q); ("a", 0%Q)]]) as Hb
    by (vm_compute; reflexivity).
  split; (split; [assumption|]).
  - exact (proj1 (score_conversion Exact.knn_query Exact.l2_profiles) _ _ _ _ Hq).
  - exact (proj2 (score_conversion Exact.knn_query Exact.two_profiles) _ _ _ Hb).
Defined.

(** [query_non_increasing] on a worked input. *)
Lemma query_non_increasing_witness :
  index Exact.two_profiles = Some (built_graph Exact.fresh2 [Exact.e1; Exact.e2]) /\
  Exact.knn_query (built_graph Exact.fresh2 [Exact.e1; Exact.e2]) [Exact.e2]
    (request_size 2 None (built_graph Exact.fresh2 [Exact.e1; Exact.e2]))
    = Ok ([1; 0] :: [], [0%Q; 1%Q] :: []) /\
  ascending [0%Q; 1%Q] /\
  exists res,
    query Exact.knn_query Exact.two_profiles Exact.e2 2 None = Ok res /\
    non_increasing res.
Proof.
  assert (index Exact.two_profiles
          = Some (built_graph Exact.fresh2 [Exact.e1; Exact.e2])) as Hg
    by reflexivity.
  assert (Exact.knn_query (built_graph Exact.fresh2 [Exact.e1; Exact.e2])
            [Exact.e2]
            (request_size 2 None (built_graph Exact.fresh2 [Exact.e1; Exact.e2]))
          = Ok ([1; 0] :: [], [0%Q; 1%Q] :: [])) as Hknn
    by (vm_compute; reflexivity).
  assert (ascending [0%Q; 1%Q]) as Hasc.
  { unfold ascending. repeat constructor. simpl. unfold Qle. simpl. lia. }
  do 3 (split; [assumption|]).
  exact (query_non_increasing Exact.knn_query Exact.two_profiles _ Exact.e2 2
           None [1; 0] [] [0%Q; 1%Q] [] Hg Hknn Hasc).
Defined.

(** [empty_id_omitted] on a worked input. *)
Lemma empty_id_omitted_witness :
  (query Exact.knn_query Exact.blank_profile Exact.e1 1 None = Ok [] /\
   exists g ids0 ids ds0 ds,
     index Exact.blank_profile = Some g /\
     Exact.knn_query g [Exact.e1] (request_size 1 None g)
       = Ok (ids0 :: ids, ds0 :: ds) /\
     forall uid s, (uid, s) ∈ ([] : list (string * Q)) ->
       uid <> "" /\
       exists h d, (h, d) ∈ zip ids0 ds0 /\
                   PyDict.get h (id_to_user Exact.blank_profile) = Some uid) /\
  (query_batch Exact.knn_query Exact.blank_profile [Exact.e1] 1 = Ok [[]] /\
   exists g ids ds,
     index Exact.blank_profile = Some g /\
     Exact.knn_query g [Exact.e1] 1 = Ok (ids, ds) /\
     forall i row, [([] : list (string * Q))] !! i = Some row ->
       exists ids_i ds_i,
         ids !! i = Some ids_i /\ ds !! i = Some ds_i /\
         forall uid, uid ∈ row.*1 <->
           uid <> "" /\
           exists h d, (h, d) ∈ zip ids_i ds_i /\
                       PyDict.get h (id_to_user Exact.blank_profile) = Some uid).
Proof.
  assert (query Exact.knn_query Exact.blank_profile Exact.e1 1 None = Ok [])
    as Hq by (vm_compute; reflexivity).
  assert (query_batch Exact.knn_query Exact.blank_profile [Exact.e1] 1 = Ok [[]])
    as Hb by (vm_compute; reflexivity).
  split; (split; [assumption|]).
  - exact (proj1 (empty_id_omitted Exact.knn_query Exact.blank_profile) _ _ _ _ Hq).
  - exact (proj2 (empty_id_omitted Exact.knn_query Exact.blank_profile) _ _ _ Hb).
Defined.

(** [query_batch_rows] on a worked input. *)
Lemma query_batch_rows_witness :
  index Exact.two_profiles = Some (built_graph Exact.fresh2 [Exact.e1; Exact.e2]) /\
  Exact.knn_query (built_graph Exact.fresh2 [Exact.e1; Exact.e2])
    [Exact.e1; Exact.e2] 2
    = Ok ([[0; 1]; [1; 0]], [[0%Q; 1%Q]; [0%Q; 1%Q]]) /\
  length [[0; 1]; [1; 0]] = length [Exact.e1; Exact.e2] /\
  length [[0%Q; 1%Q]; [0%Q; 1%Q]] = length [Exact.e1; Exact.e2] /\
  Forall (fun row => Z.of_nat (length row) = 2) [[0; 1]; [1; 0]] /\
  Forall (fun row => Z.of_nat (length row) = 2) [[0%Q; 1%Q]; [0%Q; 1%Q]] /\
  exists res,
    query_batch Exact.knn_query Exact.two_profiles [Exact.e1; Exact.e2] 2 = Ok res /\
    length res = length [Exact.e1; Exact.e2] /\
    forall i ids_i ds_i,
      [[0; 1]; [1; 0]] !! i = Some ids_i ->
      [[0%Q; 1%Q]; [0%Q; 1%Q]] !! i = Some ds_i ->
      exists row,
        res !! i = Some row /\
        row = surviving Exact.two_profiles ∅ (zip ids_i ds_i) /\
        length row = length (filter (eligible Exact.two_profiles ∅) (zip ids_i ds_i)) /\
        Z.of_nat (length row) <= 2 /\
        (Z.of_nat (length row) = 2 <->
           Forall (eligible Exact.two_profiles ∅) (zip ids_i ds_i)).
Proof.
  assert (index Exact.two_profiles
          = Some (built_graph Exact.fresh2 [Exact.e1; Exact.e2])) as Hg
    by reflexivity.
  assert (Exact.knn_query (built_graph Exact.fresh2 [Exact.e1; Exact.e2])
            [Exact.e1; Exact.e2] 2
          = Ok ([[0; 1]; [1; 0]], [[0%Q; 1%Q]; [0%Q; 1%Q]])) as Hknn
    by (vm_compute; reflexivity).
  assert (length [[0; 1]; [1; 0]] = length [Exact.e1; Exact.e2]) as Hm
    by reflexivity.
  assert (length [[0%Q; 1%Q]; [0%Q; 1%Q]] = length [Exact.e1; Exact.e2]) as Hm'
    by reflexivity.
  assert (Forall (fun row => Z.of_nat (length row) = 2) [[0; 1]; [1; 0]]) as Hi
    by (repeat constructor).
  assert (Forall (fun row => Z.of_nat (length row) = 2)
            [[0%Q; 1%Q]; [0%Q; 1%Q]]) as Hd
    by (repeat constructor).
  do 6 (split; [assumption|]).
  exact (query_batch_rows Exact.knn_query Exact.two_profiles _
           [Exact.e1; Exact.e2] 2 _ _ Hg Hknn Hm Hm' Hi Hd).
Defined.

(** C4 as stated fails: the index holds one element and [k = 1], yet the
    row of the result is empty, because the element's external ID is the
    empty string. *)
Lemma query_batch_rows_counterexample :
  exists g res row,
    index Exact.blank_profile = Some g /\
    1 <= Hnsw.get_current_count g /\
    query_batch Exact.knn_query Exact.blank_profile [Exact.e1] 1 = Ok res /\
    res !! 0%nat = Some row /\
    Z.of_nat (length row) <> 1.
Proof.
  exists (built_graph Exact.fresh2 [Exact.e1]), [[]], [].
  split; [reflexivity|]. split; [vm_compute; discriminate|].
  split; [vm_compute; reflexivity|]. split; [reflexivity|]. discriminate.
Qed.

(** [build_capacity] on a worked input: two rows, room configured for
    one. *)
Lemma build_capacity_witness :
  max_elements (config (new_ANNIndex (F:=Q) (Some Exact.tiny_config) 2))
    <= Z.of_nat (length [Exact.e1; Exact.e2]) /\
  2 <= Z.of_nat (length [Exact.e1; Exact.e2]) /\
  build Exact.built_at [Exact.e1; Exact.e2] ["a"; "b"]
    (new_ANNIndex (Some Exact.tiny_config) 2)
  = (built_state Exact.built_at [Exact.e1; Exact.e2] ["a"; "b"]
       (new_ANNIndex (Some Exact.tiny_config) 2), Ok tt) /\
  ((build Exact.built_at [Exact.e1; Exact.e2] ["a"; "b"]
      (with_max_elements 2 (new_ANNIndex (Some Exact.tiny_config) 2))).2 =
   (build Exact.built_at [Exact.e1; Exact.e2] ["a"; "b"]
      (new_ANNIndex (Some Exact.tiny_config) 2)).2 /\
   index (build Exact.built_at [Exact.e1; Exact.e2] ["a"; "b"]
            (with_max_elements 2 (new_ANNIndex (Some Exact.tiny_config) 2))).1 =
   index (build Exact.built_at [Exact.e1; Exact.e2] ["a"; "b"]
            (new_ANNIndex (Some Exact.tiny_config) 2)).1) /\
  exists g,
    index (built_state Exact.built_at [Exact.e1; Exact.e2] ["a"; "b"]
             (new_ANNIndex (Some Exact.tiny_config) 2)) = Some g /\
    Hnsw.h_max_elements g =
      Z.max (Z.of_nat (length [Exact.e1; Exact.e2]))
            (max_elements (config (new_ANNIndex (F:=Q) (Some Exact.tiny_config) 2))) /\
    Hnsw.get_current_count g = Z.of_nat (length [Exact.e1; Exact.e2]).
Proof.
  assert (max_elements (config (new_ANNIndex (F:=Q) (Some Exact.tiny_config) 2))
            <= Z.of_nat (length [Exact.e1; Exact.e2])) as Hcfg by (simpl; lia).
  assert (2 <= Z.of_nat (length [Exact.e1; Exact.e2])) as Hm by (simpl; lia).
  assert (build Exact.built_at [Exact.e1; Exact.e2] ["a"; "b"]
            (new_ANNIndex (Some Exact.tiny_config) 2)
          = (built_state Exact.built_at [Exact.e1; Exact.e2] ["a"; "b"]
               (new_ANNIndex (Some Exact.tiny_config) 2), Ok tt)) as Hbuild
    by (vm_compute; reflexivity).
  do 3 (split; [assumption|]). split.
  - exact (proj1 (proj2 (proj2 (build_capacity Exact.built_at
                                  [Exact.e1; Exact.e2] ["a"; "b"]
                                  (new_ANNIndex (Some Exact.tiny_config) 2))))
             2 Hcfg Hm).
  - exact (proj2 (proj2 (proj2 (build_capacity Exact.built_at
                                  [Exact.e1; Exact.e2] ["a"; "b"]
                                  (new_ANNIndex (Some Exact.tiny_config) 2))))
             _ Hbuild).
Defined.

(** [build_ignores_id_count] on a worked input: two rows, one ID. *)
Lemma build_ignores_id_count_witness :
  length [Exact.e1; Exact.e2] <> length ["a"] /\
  build Exact.built_at [Exact.e1; Exact.e2] ["a"] Exact.fresh2
  = (built_state Exact.built_at [Exact.e1; Exact.e2] ["a"] Exact.fresh2, Ok tt) /\
  (forall user_ids',
     (build Exact.built_at [Exact.e1; Exact.e2] ["a"] Exact.fresh2).2 =
     (build Exact.built_at [Exact.e1; Exact.e2] user_ids' Exact.fresh2).2 /\
     index (build Exact.built_at [Exact.e1; Exact.e2] ["a"] Exact.fresh2).1 =
     index (build Exact.built_at [Exact.e1; Exact.e2] user_ids' Exact.fresh2).1) /\
  exists g,
    index (built_state Exact.built_at [Exact.e1; Exact.e2] ["a"] Exact.fresh2)
      = Some g /\
    Hnsw.get_current_count g = Z.of_nat (length [Exact.e1; Exact.e2]) /\
    (forall i : nat,
       PyDict.get (Z.of_nat i)
         (id_to_user (built_state Exact.built_at [Exact.e1; Exact.e2] ["a"]
                        Exact.fresh2)) = ["a"] !! i) /\
    (forall h, h < 0 ->
       PyDict.get h
         (id_to_user (built_state Exact.built_at [Exact.e1; Exact.e2] ["a"]
                        Exact.fresh2)) = None).
Proof.
  assert (length [Exact.e1; Exact.e2] <> length ["a"]) as Hlen
    by (simpl; lia).
  assert (build Exact.built_at [Exact.e1; Exact.e2] ["a"] Exact.fresh2
          = (built_state Exact.built_at [Exact.e1; Exact.e2] ["a"] Exact.fresh2,
             Ok tt)) as Hbuild by (vm_compute; reflexivity).
  do 2 (split; [assumption|]). split.
  - exact (proj1 (build_ignores_id_count Exact.built_at [Exact.e1; Exact.e2]
                    ["a"] Exact.fresh2 Hlen)).
  - exact (proj2 (build_ignores_id_count Exact.built_at [Exact.e1; Exact.e2]
                    ["a"] Exact.fresh2 Hlen) _ Hbuild).
Defined.

(** C3 as stated fails: with two rows and one external ID, [build] returns
    normally and has replaced the index. *)
Lemma build_mismatch_counterexample :
  length [Exact.e1; Exact.e2] <> length ["a"] /\
  exists self',
    build Exact.built_at [Exact.e1; Exact.e2] ["a"] Exact.fresh2 = (self', Ok tt) /\
    index self' = Some (built_graph Exact.fresh2 [Exact.e1; Exact.e2]) /\
    index Exact.fresh2 = None /\
    id_to_user self' = [(0, "a")].
Proof.
  split; [simpl; lia|]. eexists. split; [vm_compute; reflexivity|].
  repeat split.
Qed.

(** [round_trip_same_configuration] on a worked input. *)
Lemma round_trip_same_configuration_witness :
  build Exact.built_at [Exact.e1; Exact.e2] ["a"; "b"]
    (new_ANNIndex (Some Exact.l2_config) 2) = (Exact.l2_profiles, Ok tt) /\
  save Exact.makedirs "out" Exact.l2_profiles ∅ = (Exact.l2_saved, Ok tt) /\
  space (config (new_ANNIndex (F:=Q) (Some Exact.l2_config) 384))
    = space (config Exact.l2_profiles) /\
  ef_search (config (new_ANNIndex (F:=Q) (Some Exact.l2_config) 384))
    = ef_search (config Exact.l2_profiles) /\
  exists loaded,
    load "out" Exact.l2_saved (new_ANNIndex (Some Exact.l2_config) 384)
      = (loaded, Ok tt) /\
    (forall emb k E,
       query Exact.knn_query loaded emb k E
       = query Exact.knn_query Exact.l2_profiles emb k E) /\
    (forall embs' k,
       query_batch Exact.knn_query loaded embs' k
       = query_batch Exact.knn_query Exact.l2_profiles embs' k).
Proof.
  assert (build Exact.built_at [Exact.e1; Exact.e2] ["a"; "b"]
            (new_ANNIndex (Some Exact.l2_config) 2)
          = (Exact.l2_profiles, Ok tt)) as Hbuild by (vm_compute; reflexivity).
  assert (save Exact.makedirs "out" Exact.l2_profiles ∅
          = (Exact.l2_saved, Ok tt)) as Hsave by (vm_compute; reflexivity).
  assert (space (config (new_ANNIndex (F:=Q) (Some Exact.l2_config) 384))
          = space (config Exact.l2_profiles)) as Hspace by reflexivity.
  assert (ef_search (config (new_ANNIndex (F:=Q) (Some Exact.l2_config) 384))
          = ef_search (config Exact.l2_profiles)) as Hef by reflexivity.
  do 4 (split; [assumption|]).
  exact (round_trip_same_configuration Exact.knn_query Exact.makedirs
           Exact.built_at [Exact.e1; Exact.e2] ["a"; "b"]
           (new_ANNIndex (Some Exact.l2_config) 2) Exact.l2_profiles "out" ∅
           Exact.l2_saved (Some Exact.l2_config) 384 Hbuild Hsave Hspace Hef).
Defined.

(** C2.  The round trip loses the similarity space for scoring.  An index
    built under the Euclidean space, saved and loaded into a controller
    with the default (cosine) configuration, has its graph restored under
    the recorded space [l2], while [query] goes on converting distances by
    the controller's own configured space: the loaded controller scores
    the nearest neighbour [1 - 0 = 1] where the original scores it
    [-0 = 0]. *)
Lemma reloaded_query_stale_space :
  build Exact.built_at [Exact.e1; Exact.e2] ["a"; "b"]
    (new_ANNIndex (Some Exact.l2_config) 2) = (Exact.l2_profiles, Ok tt) /\
  save Exact.makedirs "out" Exact.l2_profiles ∅ = (Exact.l2_saved, Ok tt) /\
  load "out" Exact.l2_saved (new_ANNIndex None 384) = (Exact.l2_reloaded, Ok tt) /\
  Hnsw.h_space <$> index Exact.l2_reloaded = Some "l2" /\
  space (config Exact.l2_reloaded) = "cosine" /\
  query Exact.knn_query Exact.l2_profiles Exact.e1 1 None = Ok [("a", 0%Q)] /\
  query Exact.knn_query Exact.l2_reloaded Exact.e1 1 None = Ok [("a", 1%Q)].
Proof. repeat split; vm_compute; reflexivity. Qed.

(** [load_sidecar_cases] on a worked input. *)
Lemma load_sidecar_cases_witness :
  ((∅ : gmap string (file Q)) !! os_path_join "out" "mappings.json" = None /\
   load "out" ∅ Exact.fresh2 =
     (Exact.fresh2, Err (FileNotFoundError (os_path_join "out" "mappings.json")))) /\
  (({["out/mappings.json" := Unreadable]} : gmap string (file Q))
     !! os_path_join "out" "mappings.json" = Some Unreadable /\
   (forall doc, @Unreadable Q <> MappingsJson doc) /\
   load "out" {["out/mappings.json" := Unreadable]} Exact.fresh2 =
     (Exact.fresh2, Err JSONDecodeError)) /\
  (({["out/mappings.json" :=
        MappingsJson {| sc_id_to_user := None; sc_metadata := Some [] |}]}
      : gmap string (file Q))
     !! os_path_join "out" "mappings.json"
     = Some (MappingsJson {| sc_id_to_user := None; sc_metadata := Some [] |}) /\
   load "out"
     {["out/mappings.json" :=
         MappingsJson {| sc_id_to_user := None; sc_metadata := Some [] |}]}
     Exact.fresh2 = (Exact.fresh2, Err (KeyError "id_to_user"))) /\
  (Exact.bare_dir !! os_path_join "out" "mappings.json"
     = Some (MappingsJson Exact.bare_sidecar) /\
   Exact.bare_dir !! os_path_join "out" "index.bin"
     = Some (IndexBin (built_graph Exact.fresh2 [Exact.e1; Exact.e2])) /\
   load "out" Exact.bare_dir Exact.fresh2 =
     (loaded_state Exact.fresh2 (space (config Exact.fresh2)) (dim Exact.fresh2)
        (built_graph Exact.fresh2 [Exact.e1; Exact.e2]) [(0, "a"); (1, "b")]
        (default [] (PyDict.of_pairs <$> sc_metadata Exact.bare_sidecar)),
      Ok tt)).
Proof.
  assert ((∅ : gmap string (file Q)) !! os_path_join "out" "mappings.json" = None)
    as Ha by reflexivity.
  assert (({["out/mappings.json" := Unreadable]} : gmap string (file Q))
            !! os_path_join "out" "mappings.json" = Some Unreadable) as Hb
    by (vm_compute; reflexivity).
  assert (forall doc, @Unreadable Q <> MappingsJson doc) as Hb' by discriminate.
  assert (({["out/mappings.json" :=
               MappingsJson {| sc_id_to_user := None; sc_metadata := Some [] |}]}
             : gmap string (file Q))
            !! os_path_join "out" "mappings.json"
          = Some (MappingsJson {| sc_id_to_user := None; sc_metadata := Some [] |}))
    as Hc by (vm_compute; reflexivity).
  assert (Exact.bare_dir !! os_path_join "out" "mappings.json"
          = Some (MappingsJson Exact.bare_sidecar)) as Hd
    by (vm_compute; reflexivity).
  assert (Exact.bare_dir !! os_path_join "out" "index.bin"
          = Some (IndexBin (built_graph Exact.fresh2 [Exact.e1; Exact.e2]))) as Hd'
    by (vm_compute; reflexivity).
  split; [|split; [|split]].
  - split; [assumption|].
    exact (proj1 (load_sidecar_cases "out" ∅ Exact.fresh2) Ha).
  - do 2 (split; [assumption|]).
    exact (proj1 (proj2 (load_sidecar_cases "out" _ Exact.fresh2)) _ Hb Hb').
  - split; [assumption|].
    exact (proj1 (proj2 (proj2 (load_sidecar_cases "out" _ Exact.fresh2)))
             _ Hc eq_refl).
  - do 2 (split; [assumption|]).
    refine (proj2 (proj2 (proj2 (load_sidecar_cases "out" _ Exact.fresh2)))
              Exact.bare_sidecar [("0", "a"); ("1", "b")] [(0, "a"); (1, "b")]
              (built_graph Exact.fresh2 [Exact.e1; Exact.e2])
              Hd eq_refl _ eq_refl eq_refl eq_refl _ Hd' eq_refl eq_refl).
    + vm_compute. reflexivity.
    + simpl. lia.
Defined.

(** C9 as stated fails: the sidecar records neither dimension nor space,
    yet [load] returns normally, with the controller's own dimension and
    configured space in their place, and the index answers queries. *)
Lemma load_missing_metadata_counterexample :
  Exact.bare_dir !! "out/mappings.json" = Some (MappingsJson Exact.bare_sidecar) /\
  sc_metadata Exact.bare_sidecar = None /\
  exists loaded g,
    load "out" Exact.bare_dir Exact.fresh2 = (loaded, Ok tt) /\
    index loaded = Some g /\
    Hnsw.h_dim g = dim Exact.fresh2 /\
    Hnsw.h_space g = space (config Exact.fresh2) /\
    query Exact.knn_query loaded Exact.e1 1 None = Ok [("a", 1%Q)].
Proof.
  split; [vm_compute; reflexivity|]. split; [reflexivity|].
  eexists _, _. split; [vm_compute; reflexivity|].
  split; [reflexivity|]. repeat split. 
Qed.

(** * Further properties *)

(** ** Queries *)
Section MoreQueryFacts.
Context {F : Type} `{FloatOps F}.
Variable knn_query :
  Hnsw.Index F -> list (list F) -> Z -> result (list (list Z) * list (list F)).
Implicit Types (self : ANNIndex F) (g : Hnsw.Index F).

Lemma exclude_set_of_ext E E' :
  (forall u, excluded E u <-> excluded E' u) ->
  exclude_set_of E = exclude_set_of E'.
Proof.
  intros Hsame. apply set_eq. intros u.
  by rewrite !elem_of_exclude_set_of.
Qed.

(** X1.  The exclusion list acts on [query] through its length and its
    elements only: two lists of the same length with the same elements, or
    an empty list and a missing one, give the same outcome. *)
Theorem query_exclusion_list_invariance self emb k E E' :
  exclusion_size E = exclusion_size E' ->
  (forall u, excluded E u <-> excluded E' u) ->
  query knn_query self emb k E = query knn_query self emb k E'.
Proof.
  intros Hsize Hsame. unfold query.
  by rewrite !exclude_len_size, Hsize, (exclude_set_of_ext E E').
Qed.

(** X2.  With [k <= 0] the loop still appends before it compares, so
    [query] returns the first eligible candidate alone, and the empty list
    only when no fetched candidate is eligible. *)
Theorem query_nonpositive_k self g emb k E ids0 ids ds0 ds :
  k <= 0 ->
  index self = Some g ->
  knn_query g [emb] (request_size k E g) = Ok (ids0 :: ids, ds0 :: ds) ->
  query knn_query self emb k E =
    Ok (take 1 (surviving self (exclude_set_of E) (zip ids0 ds0))).
Proof.
  intros Hk Hg Hknn. rewrite (query_returns _ _ g emb k E ids0 ids ds0 ds) by done.
  by replace (Z.to_nat (Z.max 1 k)) with 1%nat by lia.
Qed.

Lemma surviving_app self E (l1 l2 : list (Z * F)) :
  surviving self E (l1 ++ l2) = surviving self E l1 ++ surviving self E l2.
Proof. apply omap_app. Qed.

Lemma length_surviving_le self E (l : list (Z * F)) :
  (length (surviving self E l) <= length l)%nat.
Proof. rewrite length_surviving. apply length_filter. Qed.

(** The eligible ones among the first [n] candidates open the first [n]
    eligible candidates. *)
Lemma surviving_take self E n (l : list (Z * F)) :
  exists rest,
    take n (surviving self E l) = surviving self E (take n l) ++ rest /\
    (length (surviving self E (take n l)) = n -> rest = []).
Proof.
  assert (surviving self E l
          = surviving self E (take n l) ++ surviving self E (drop n l)) as ->
    by (by rewrite <- surviving_app, take_drop).
  rewrite take_app.
  pose proof (length_surviving_le self E (take n l)) as Hle.
  rewrite take_ge by (rewrite length_take in Hle; lia).
  eexists. split; [reflexivity|].
  intros ->. by rewrite Nat.sub_diag, take_0.
Qed.

Lemma take_zip {A B} n (l : list A) (k : list B) :
  take n (zip l k) = zip (take n l) (take n k).
Proof.
  revert l k. induction n as [|n IH]; intros [|a l] [|b k]; simpl; try done.
  by rewrite IH.
Qed.

(** X4.  When the graph search answers the smaller request of
    [query_batch] with the first [k] of what it answers to the over-fetching
    request of [query], the row [query_batch] returns for an embedding opens
    the list [query] returns for it without exclusions, and the two are
    equal when the row has [k] entries. *)
Theorem batch_row_opens_query self g emb k ids0 ids ds0 ds :
  1 <= k ->
  index self = Some g ->
  knn_query g [emb] (request_size k None g) = Ok (ids0 :: ids, ds0 :: ds) ->
  knn_query g [emb] k
    = Ok ([take (Z.to_nat k) ids0], [take (Z.to_nat k) ds0]) ->
  exists row res more,
    query_batch knn_query self [emb] k = Ok [row] /\
    query knn_query self emb k None = Ok res /\
    res = row ++ more /\
    (Z.of_nat (length row) = k -> more = []).
Proof.
  intros Hk Hg Hq Hb.
  destruct (surviving_take self ∅ (Z.to_nat k) (zip ids0 ds0))
    as (more & Htake & Hfull).
  eexists _, _, more. split; [|split; [|split]].
  - rewrite (query_batch_unfold _ _ g) by done. rewrite Hb. reflexivity.
  - by rewrite (query_returns _ _ g emb k None ids0 ids ds0 ds).
  - simpl. replace (Z.to_nat (Z.max 1 k)) with (Z.to_nat k) by lia.
    by rewrite Htake, take_zip.
  - simpl. intros Hlen. apply Hfull. rewrite take_zip. lia.
Qed.
End MoreQueryFacts.

(** ** Queries on a built index *)
Section BuiltQueryFacts.
Context {F : Type} `{FloatOps F}.
Variable knn_query :
  Hnsw.Index F -> list (list F) -> Z -> result (list (list Z) * list (list F)).
Implicit Types (self : ANNIndex F) (g : Hnsw.Index F).

Lemma get_Some_elem_of {K V} `{EqDecision K} (k : K) (v : V) d :
  PyDict.get k d = Some v -> (k, v) ∈ d.
Proof.
  induction d as [|[k' v'] d IH]; simpl; [done|].
  case_decide; [intros [= ->]; subst; left | intros; right; auto].
Qed.

Lemma get_enumerate_Some (user_ids : list string) h u :
  PyDict.get h (enumerate user_ids) = Some u ->
  exists i : nat, h = Z.of_nat i /\ user_ids !! i = Some u.
Proof.
  intros Hget. apply get_Some_elem_of, list_elem_of_lookup in Hget as [i Hi].
  rewrite enumerate_lookup in Hi. exists i.
  destruct (user_ids !! i) as [x|]; [|done]. by injection Hi as <- <-.
Qed.

Lemma NoDup_fst_zip {A B} (l : list A) (k : list B) :
  NoDup l -> NoDup (zip l k).*1.
Proof.
  intros Hnd. revert k. induction Hnd as [|a l Ha Hnd IH]; intros [|b k];
    simpl; try constructor; [|apply IH].
  intros Hin. apply list_elem_of_fmap in Hin as ([a' b'] & -> & Hin).
  by apply elem_of_zip_l in Hin.
Qed.

Lemma surviving_NoDup self E (cands : list (Z * F)) :
  NoDup cands.*1 ->
  (forall h h' u,
     PyDict.get h (id_to_user self) = Some u ->
     PyDict.get h' (id_to_user self) = Some u -> h = h') ->
  NoDup (surviving self E cands).*1.
Proof.
  intros Hnd Hinj. induction cands as [|[h d] cands IH]; [constructor|].
  simpl in Hnd. apply NoDup_cons in Hnd as [Hh Hnd].
  rewrite surviving_cons.
  destruct (report self E (h, d)) as [[u s]|] eqn:Hr; [|by apply IH].
  simpl. constructor; [|by apply IH].
  intros Hin. apply list_elem_of_fmap in Hin as ([u' s'] & Hu & Hin).
  simpl in Hu. subst u'.
  apply elem_of_surviving in Hin as (h' & d' & Hin & Hget' & _).
  unfold report in Hr. simpl in Hr.
  destruct (PyDict.get h (id_to_user self)) as [u0|] eqn:Hget; [|done].
  destruct (_ && _); [|done]. injection Hr as -> _.
  apply Hh. rewrite (Hinj h h' u Hget Hget').
  apply list_elem_of_fmap. by exists (h', d').
Qed.

(** X5.  On an index built from distinct external IDs, when the graph
    search returns distinct labels, [query] reports no external ID twice. *)
Theorem query_no_duplicates now embs user_ids self0 self g emb k E
    ids0 ids ds0 ds :
  build now embs user_ids self0 = (self, Ok tt) ->
  NoDup user_ids ->
  index self = Some g ->
  knn_query g [emb] (request_size k E g) = Ok (ids0 :: ids, ds0 :: ds) ->
  NoDup ids0 ->
  exists res, query knn_query self emb k E = Ok res /\ NoDup res.*1.
Proof.
  intros Hbuild Hids Hg Hknn Hlabels.
  apply build_inv in Hbuild as [_ ->].
  eexists. split; [by eapply query_returns|].
  rewrite fmap_take. eapply sublist_NoDup; [|apply sublist_take].
  apply surviving_NoDup; [by apply NoDup_fst_zip|].
  simpl. intros h h' u Hh Hh'.
  apply get_enumerate_Some in Hh as (i & -> & Hi).
  apply get_enumerate_Some in Hh' as (j & -> & Hj).
  f_equal. exact (NoDup_lookup _ _ _ _ Hids Hi Hj).
Qed.

(** X6.  After a successful [build], every external ID that [query] or
    [query_batch] reports is a non-empty one of the IDs given to [build]. *)
Theorem queries_report_built_ids now embs user_ids self0 self :
  build now embs user_ids self0 = (self, Ok tt) ->
  (forall emb k E res uid s,
     query knn_query self emb k E = Ok res -> (uid, s) ∈ res ->
     uid <> "" /\ exists i : nat, user_ids !! i = Some uid) /\
  (forall embs' k res row uid s,
     query_batch knn_query self embs' k = Ok res -> row ∈ res -> (uid, s) ∈ row ->
     uid <> "" /\ exists i : nat, user_ids !! i = Some uid).
Proof.
  intros Hbuild. apply build_inv in Hbuild as [_ ->]. split.
  - intros emb k E res uid s Hq Hin.
    apply query_inv in Hq as (g & ids0 & ids & ds0 & ds & _ & _ & ->).
    apply elem_of_take in Hin as (i & Hi & _).
    apply list_elem_of_lookup_2, elem_of_surviving in Hi
      as (h & d & _ & Hget & Hne & _).
    split; [done|]. simpl in Hget.
    apply get_enumerate_Some in Hget as (j & _ & Hj). by exists j.
  - intros embs' k res row uid s Hq Hrow Hin.
    apply query_batch_inv in Hq as (g & ids & ds & _ & _ & ->).
    apply list_elem_of_fmap in Hrow as ([ri rd] & -> & _).
    apply elem_of_surviving in Hin as (h & d & _ & Hget & Hne & _).
    split; [done|]. simpl in Hget.
    apply get_enumerate_Some in Hget as (j & _ & Hj). by exists j.
Qed.
End BuiltQueryFacts.

(** ** More on building *)
Section MoreBuildFacts.
Context {F : Type}.
Implicit Types (self : ANNIndex F) (g : Hnsw.Index F).

(** X7.  A successful [build] replaces the state wholesale: what it leaves
    depends on the controller through its configuration and dimension
    only, not on the index, the maps or the metadata it held before. *)
Theorem build_replaces_state now (embs : list (list F)) user_ids
    self1 self2 self' :
  config self1 = config self2 ->
  dim self1 = dim self2 ->
  build now embs user_ids self1 = (self', Ok tt) ->
  build now embs user_ids self2 = (self', Ok tt).
Proof.
  intros Hcfg Hdim Hbuild. apply build_inv in Hbuild as [Hb ->].
  rewrite build_ok.
  - unfold built_state, built_graph. by rewrite Hcfg, Hdim.
  - unfold buildable in *. by rewrite <- Hcfg, <- Hdim.
Qed.

(** X8.  When the configuration is acceptable but some row has not the
    configured dimension, [build] raises the library's dimension error
    after it has replaced the index by a new, empty graph and the
    identifier maps by those of [user_ids]; the metadata is still the
    previous one. *)
Theorem build_wrong_dimension now (embs : list (list F)) user_ids self :
  Hnsw.valid_space (space (config self)) = true ->
  0 <= ef_construction (config self) ->
  0 <= M (config self) ->
  ~ Forall (fun row => Z.of_nat (length row) = dim self) embs ->
  exists self' g,
    build now embs user_ids self
      = (self', Err (RuntimeError WrongDimensionality)) /\
    index self' = Some g /\
    Hnsw.h_initialized g = true /\
    Hnsw.get_current_count g = 0 /\
    id_to_user self' = enumerate user_ids /\
    metadata self' = metadata self.
Proof.
  intros Hsp Hefc HM Hrows.
  unfold build, bind, read, lift. simpl. unfold Hnsw.new. rewrite Hsp. simpl.
  unfold on_index at 1. simpl. unfold Hnsw.init_index. simpl.
  rewrite decide_False by lia. simpl.
  unfold on_index_partial. simpl. unfold Hnsw.add_items. simpl.
  destruct (forallb _ embs) eqn:Hcheck; [by apply rows_checked in Hcheck|].
  simpl. eexists _, _. split; [reflexivity|]. simpl.
  repeat split. apply of_pairs_NoDup, enumerate_NoDup.
Qed.

Lemma get_set {K V} `{EqDecision K} (k k' : K) (v : V) d :
  PyDict.get k (PyDict.set k' v d) =
    if decide (k = k') then Some v else PyDict.get k d.
Proof.
  induction d as [|[k0 v0] d IH]; simpl.
  - done.
  - destruct (decide (k' = k0)) as [->|Hne]; simpl.
    + destruct (decide (k = k0)); done.
    + rewrite IH. destruct (decide (k = k0)) as [->|]; [|done].
      by rewrite decide_False by done.
Qed.

Lemma of_pairs_snoc {K V} `{EqDecision K} (kvs : list (K * V)) k v :
  PyDict.of_pairs (kvs ++ [(k, v)]) = PyDict.set k v (PyDict.of_pairs kvs).
Proof. unfold PyDict.of_pairs. by rewrite foldl_app. Qed.

Lemma enumerate_snoc {A} (xs : list A) x :
  enumerate (xs ++ [x]) = enumerate xs ++ [(Z.of_nat (length xs), x)].
Proof.
  unfold enumerate. rewrite imap_app. simpl. by rewrite Nat.add_0_r.
Qed.

(** The inverse map of [build] sends an ID to its last position. *)
Lemma get_inverse_enumerate (user_ids : list string) uid h :
  PyDict.get uid
    (PyDict.of_pairs ((fun iu => (iu.2, iu.1)) <$> enumerate user_ids)) = Some h <->
  exists i : nat,
    h = Z.of_nat i /\ user_ids !! i = Some uid /\
    forall j : nat, user_ids !! j = Some uid -> (j <= i)%nat.
Proof.
  revert h. induction user_ids as [|x user_ids IH] using rev_ind; intros h.
  - simpl. split; [done | by intros (i & _ & Hi & _)].
  - rewrite enumerate_snoc, fmap_app.
    change ((fun iu : Z * string => (iu.2, iu.1))
              <$> [(Z.of_nat (length user_ids), x)])
      with [(x, Z.of_nat (length user_ids))].
    rewrite of_pairs_snoc, get_set.
    destruct (decide (uid = x)) as [->|Hne].
    + split.
      * intros [= <-]. exists (length user_ids). split; [done|].
        split; [by rewrite lookup_app_r, Nat.sub_diag by lia|].
        intros j Hj. apply lookup_lt_Some in Hj.
        rewrite length_app in Hj. simpl in Hj. lia.
      * intros (i & -> & Hi & Hlast).
        assert ((user_ids ++ [x]) !! length user_ids = Some x) as Hx
          by (by rewrite lookup_app_r, Nat.sub_diag by lia).
        apply Hlast in Hx. apply lookup_lt_Some in Hi.
        rewrite length_app in Hi. simpl in Hi.
        do 2 f_equal. lia.
    + rewrite IH. split.
      * intros (i & -> & Hi & Hlast). exists i. split; [done|].
        split; [by apply lookup_app_l_Some|].
        intros j Hj. apply lookup_app_Some in Hj as [Hj|[_ Hj]]; [by apply Hlast|].
        destruct (j - length user_ids)%nat; simpl in Hj; [congruence|done].
      * intros (i & -> & Hi & Hlast). exists i. split; [done|].
        apply lookup_app_Some in Hi as [Hi|[_ Hi]].
        -- split; [done|]. intros j Hj. apply Hlast. by apply lookup_app_l_Some.
        -- destruct (i - length user_ids)%nat; simpl in Hi; [congruence|done].
Qed.

(** X9.  After a successful [build], [user_to_id] sends an external ID to
    the handle of its last position in [user_ids]; what it returns is
    always a handle that [id_to_user] translates back to that ID, and when
    the IDs are distinct the two maps are inverse to each other. *)
Theorem identifier_maps_inverse now (embs : list (list F)) user_ids self0 self :
  build now embs user_ids self0 = (self, Ok tt) ->
  (forall uid h,
     PyDict.get uid (user_to_id self) = Some h <->
     exists i : nat,
       h = Z.of_nat i /\ user_ids !! i = Some uid /\
       forall j : nat, user_ids !! j = Some uid -> (j <= i)%nat) /\
  (forall uid h,
     PyDict.get uid (user_to_id self) = Some h ->
     PyDict.get h (id_to_user self) = Some uid) /\
  (NoDup user_ids ->
   forall uid h,
     PyDict.get h (id_to_user self) = Some uid ->
     PyDict.get uid (user_to_id self) = Some h).
Proof.
  intros Hbuild. apply build_inv in Hbuild as [_ ->]. simpl.
  split; [|split].
  - intros uid h. apply get_inverse_enumerate.
  - intros uid h Hget. apply get_inverse_enumerate in Hget as (i & -> & Hi & _).
    rewrite <- Hi, <- get_enumerate.
    by rewrite of_pairs_NoDup by apply enumerate_NoDup.
  - intros Hnd uid h Hget. apply get_inverse_enumerate.
    apply get_enumerate_Some in Hget as (i & -> & Hi).
    exists i. do 2 (split; [done|]). intros j Hj.
    by rewrite (NoDup_lookup _ _ _ _ Hnd Hj Hi).
Qed.
(** X17.  How a failed [build] leaves the controller.  An unknown space
    name is refused by the constructor of the graph, before anything is
    assigned.  With a known space name and a dimension that fits a C
    [int], every failure comes after the index was replaced: the
    controller then holds the graph of this call, whose elements are rows
    of this call, and still the configuration, the dimension and the
    metadata it had before. *)
Theorem build_failure_states now (embs : list (list F)) user_ids self :
  (Hnsw.valid_space (space (config self)) = false ->
   build now embs user_ids self = (self, Err (RuntimeError BadSpaceName))) /\
  (Hnsw.valid_space (space (config self)) = true ->
   - 2 ^ 31 <= dim self < 2 ^ 31 ->
   forall self' e,
     build now embs user_ids self = (self', Err e) ->
     config self' = config self /\
     dim self' = dim self /\
     metadata self' = metadata self /\
     exists g,
       index self' = Some g /\
       forall item, item ∈ Hnsw.h_items g ->
                    item ∈ zip (arange (length embs)) embs).
Proof.
  split.
  - intros Hsp. rewrite build_unfold. unfold Hnsw.new. by rewrite Hsp.
  - intros Hsp _ self' e Hbuild.
    destruct (build_outcome now embs user_ids self)
      as [[_ Heq]|[_ (s & e' & Heq & _ & Hst)]]; rewrite Heq in Hbuild; [done|].
    injection Hbuild as <- <-.
    destruct Hst as [[_ Hbad]|(g & Hg & Hc & Hd & Hm & Hitems & _)];
      [congruence|].
    do 3 (split; [done|]). exists g. split; [done|].
    intros item Hin. destruct Hitems as [Hi|Hi]; rewrite Hi in Hin; [|done].
    by apply elem_of_nil in Hin.
Qed.
End MoreBuildFacts.

(** ** More on saving and loading *)
Section MorePersistFacts.
Context {F : Type}.
Variable makedirs : string -> gmap string (file F) -> result unit.
Implicit Types (self : ANNIndex F) (g : Hnsw.Index F)
  (fs : gmap string (file F)).

(** X13.  [save] raises on a controller without a graph, and raises what
    [os.makedirs] raises when the directory cannot be made; in either case
    it has written nothing.  When the directory is there and the graph is
    initialised, it writes [index.bin] and [mappings.json] in the
    directory and leaves every other path as it was; saving again then
    changes nothing. *)
Theorem save_writes_two_files path self fs :
  (index self = None ->
   save makedirs path self fs = (fs, Err (ValueError "No index to save"))) /\
  (forall g e,
     index self = Some g ->
     makedirs path fs = Err e ->
     save makedirs path self fs = (fs, Err e)) /\
  (forall g,
     index self = Some g ->
     Hnsw.h_initialized g = true ->
     makedirs path fs = Ok tt ->
     exists fs',
       save makedirs path self fs = (fs', Ok tt) /\
       fs' !! os_path_join path "index.bin" = Some (IndexBin g) /\
       fs' !! os_path_join path "mappings.json"
         = Some (MappingsJson (saved_sidecar self)) /\
       (forall p,
          p <> os_path_join path "index.bin" ->
          p <> os_path_join path "mappings.json" ->
          fs' !! p = fs !! p) /\
       (makedirs path fs' = Ok tt ->
        save makedirs path self fs' = (fs', Ok tt))).
Proof.
  split; [|split].
  - intros Hnone. unfold save. by rewrite Hnone.
  - intros g e Hg Hdir. unfold save. by rewrite Hg, Hdir.
  - intros g Hg Hinit Hdir. exists (saved_dir path self g fs).
    pose proof (os_path_join_distinct path) as Hne.
    split; [by apply save_ok|]. unfold saved_dir. split; [|split; [|split]].
    + rewrite lookup_insert_ne by done. apply lookup_insert_eq.
    + apply lookup_insert_eq.
    + intros p Hp1 Hp2. by rewrite !lookup_insert_ne.
    + intros Hdir'. rewrite (save_ok makedirs path self g) by done.
      f_equal. unfold saved_dir.
      apply map_eq. intros p.
      destruct (decide (p = os_path_join path "mappings.json")) as [->|Hp2];
        [by rewrite !lookup_insert_eq|].
      rewrite !(lookup_insert_ne _ (os_path_join path "mappings.json")) by done.
      destruct (decide (p = os_path_join path "index.bin")) as [->|Hp1];
        [by rewrite !lookup_insert_eq|].
      rewrite !(lookup_insert_ne _ (os_path_join path "index.bin")) by done.
      by rewrite !lookup_insert_ne.
Qed.

(** X10.  After a successful [build] and a successful [save], [load] of
    the directory into any controller whose [ef_search] the library
    accepts succeeds and replaces its state wholesale: dimension,
    identifier maps and metadata are those of the saved controller,
    whatever the loading controller held, and the graph is the saved one
    with the loading controller's [ef_search].  Only the configuration
    stays the loading controller's. *)
Theorem load_restores_saved now embs user_ids self0 self path fs fs' other :
  build now embs user_ids self0 = (self, Ok tt) ->
  save makedirs path self fs = (fs', Ok tt) ->
  0 <= ef_search (config other) < 2 ^ 64 ->
  exists g,
    index self = Some g /\
    fs' = saved_dir path self g fs /\
    load path fs' other =
      ({| config := config other;
          dim := dim self;
          index := Some (with_ef (ef_search (config other)) g);
          id_to_user := id_to_user self;
          user_to_id := user_to_id self;
          metadata := metadata self |}, Ok tt).
Proof.
  intros Hbuild Hsave [Hef _].
  apply build_inv in Hbuild as [Hb ->].
  apply save_inv in Hsave as (g & [= <-] & _ & _ & ->).
  exists (built_graph self0 embs). do 2 (split; [done|]).
  by rewrite (load_saved now embs user_ids self0 path fs other Hb Hef).
Qed.

(** X11.  Loading the directory back into the controller that has just
    saved it succeeds and leaves that controller exactly as it was. *)
Theorem reload_is_identity now embs user_ids self0 self path fs fs' :
  build now embs user_ids self0 = (self, Ok tt) ->
  save makedirs path self fs = (fs', Ok tt) ->
  load path fs' self = (self, Ok tt).
Proof.
  intros Hbuild Hsave.
  apply build_inv in Hbuild as [Hb ->].
  apply save_inv in Hsave as (g & [= <-] & _ & _ & ->).
  rewrite (load_saved now embs user_ids self0 path fs
             (built_state now embs user_ids self0) Hb).
  - reflexivity.
  - destruct Hb as (_ & _ & _ & Hefs & _). done.
Qed.

(** X12.  [load] is not atomic: when the sidecar is in order but
    [index.bin] is absent, it raises the library's error after it has
    replaced the identifier maps, the metadata and the dimension, and has
    set the index to a graph object that is not initialised. *)
Theorem load_missing_binary path fs self doc items pairs d sp :
  fs !! os_path_join path "mappings.json" = Some (MappingsJson doc) ->
  sc_id_to_user doc = Some items ->
  int_keys (PyDict.of_pairs items) = Ok pairs ->
  (PyDict.get "dim" (default [] (PyDict.of_pairs <$> sc_metadata doc)) = None
     /\ d = dim self \/
   PyDict.get "dim" (default [] (PyDict.of_pairs <$> sc_metadata doc))
     = Some (JInt d)) ->
  (PyDict.get "space" (default [] (PyDict.of_pairs <$> sc_metadata doc)) = None
     /\ sp = space (config self) \/
   PyDict.get "space" (default [] (PyDict.of_pairs <$> sc_metadata doc))
     = Some (JStr sp)) ->
  Hnsw.valid_space sp = true ->
  fs !! os_path_join path "index.bin" = None ->
  exists self' g,
    load path fs self = (self', Err (RuntimeError CannotOpenFile)) /\
    id_to_user self' = PyDict.of_pairs pairs /\
    metadata self' = default [] (PyDict.of_pairs <$> sc_metadata doc) /\
    dim self' = d /\
    index self' = Some g /\
    Hnsw.h_initialized g = false.
Proof.
  intros Hfile Hitems Hkeys Hdim Hspace Hsp Hbin.
  unfold load, bind, lift, read, json_load. rewrite Hfile. simpl.
  rewrite Hitems. simpl. rewrite Hkeys. simpl.
  assert (match PyDict.get "dim" (default [] (PyDict.of_pairs <$> sc_metadata doc)) with
          | Some (JInt z) => Ok z
          | Some _ => Err TypeError
          | None => Ok (dim self)
          end = Ok d) as ->
    by (destruct Hdim as [[-> ->]| ->]; done).
  simpl.
  assert (match PyDict.get "space" (default [] (PyDict.of_pairs <$> sc_metadata doc)) with
          | Some (JStr z) => Ok z
          | Some _ => Err TypeError
          | None => Ok (space (config self))
          end = Ok sp) as ->
    by (destruct Hspace as [[-> ->]| ->]; done).
  simpl. unfold Hnsw.new. rewrite Hsp. simpl.
  unfold on_index at 1. simpl. unfold load_index. rewrite Hbin.
  eexists _, _. split; [reflexivity|]. by repeat split.
Qed.
End MorePersistFacts.

(** ** The build pipeline *)
Section PipelineFacts.
Context {F : Type} `{FloatOps F}.
Variable knn_query :
  Hnsw.Index F -> list (list F) -> Z -> result (list (list Z) * list (list F)).
Variable makedirs : string -> gmap string (file F) -> result unit.
Variable np_load : string -> result (ndarray F).
Variable read_user_ids : string -> result (list string).
Variable upload_step : string -> result unit.
Implicit Types (fs : gmap string (file F)).

(** X14.  [build_index_from_embeddings] writes nothing unless the reads,
    the build and the making of the directory have all gone through: a
    failure of any of them is raised as it is, with the files as they
    were.  The dimension is taken from the matrix it loads, so the build
    cannot raise the library's dimension error, whatever the width or the
    number of IDs.  When the build returns and the directory is there, the
    function returns the built controller, of the matrix's width and
    holding one element per row, and has written the directory. *)
Theorem build_index_from_embeddings_outcome now ep up out cfg fs :
  (forall e,
     np_load ep = Err e ->
     build_index_from_embeddings makedirs np_load read_user_ids now ep up out
       cfg fs = (fs, Err e)) /\
  (forall a e,
     np_load ep = Ok a ->
     read_user_ids up = Err e ->
     build_index_from_embeddings makedirs np_load read_user_ids now ep up out
       cfg fs = (fs, Err e)) /\
  (forall a user_ids,
     np_load ep = Ok a ->
     read_user_ids up = Ok user_ids ->
     (rectangular a ->
      (build now (rows a) user_ids
         (new_ANNIndex cfg (Z.of_nat (shape1 a)))).2
        <> Err (RuntimeError WrongDimensionality)) /\
     (forall self' e,
        build now (rows a) user_ids (new_ANNIndex cfg (Z.of_nat (shape1 a)))
          = (self', Err e) ->
        build_index_from_embeddings makedirs np_load read_user_ids now ep up
          out cfg fs = (fs, Err e)) /\
     (forall built,
        build now (rows a) user_ids (new_ANNIndex cfg (Z.of_nat (shape1 a)))
          = (built, Ok tt) ->
        (forall e,
           makedirs out fs = Err e ->
           build_index_from_embeddings makedirs np_load read_user_ids now ep
             up out cfg fs = (fs, Err e)) /\
        (makedirs out fs = Ok tt ->
         exists g,
           index built = Some g /\
           build_index_from_embeddings makedirs np_load read_user_ids now ep
             up out cfg fs = (saved_dir out built g fs, Ok built) /\
           dim built = Z.of_nat (shape1 a) /\
           Hnsw.get_current_count g = Z.of_nat (length (rows a)) /\
           (forall i : nat,
              PyDict.get (Z.of_nat i) (id_to_user built) = user_ids !! i)))).
Proof.
  split; [|split].
  - intros e Ha. unfold build_index_from_embeddings. by rewrite Ha.
  - intros a e Ha Hids. unfold build_index_from_embeddings. by rewrite Ha, Hids.
  - intros a user_ids Ha Hids. split; [|split].
    + intros Hrect Hbad. apply build_dimension_error in Hbad. apply Hbad.
      eapply Forall_impl; [exact Hrect|]. simpl. by intros row ->.
    + intros self' e Hbuild. unfold build_index_from_embeddings.
      by rewrite Ha, Hids, Hbuild.
    + intros built Hbuild. split.
      * intros e Hdir. unfold build_index_from_embeddings.
        rewrite Ha, Hids, Hbuild. apply build_inv in Hbuild as [_ ->].
        unfold save. simpl. by rewrite Hdir.
      * intros Hdir. unfold build_index_from_embeddings.
        rewrite Ha, Hids, Hbuild. apply build_inv in Hbuild as [_ ->].
        exists (built_graph (new_ANNIndex cfg (Z.of_nat (shape1 a))) (rows a)).
        split; [done|]. split; [by erewrite save_ok|].
        split; [done|]. split.
        -- unfold Hnsw.get_current_count. simpl.
           rewrite length_zip, length_arange. lia.
        -- intros i. simpl. rewrite <- get_enumerate.
           by rewrite of_pairs_NoDup by apply enumerate_NoDup.
Qed.

(** X15.  [main] saves before it tests: once the inputs are read, the
    build has returned and the directory is there, the directory is
    written whatever the test query and the upload do afterwards; with an
    empty ID list the run then stops with an [IndexError].  A matrix
    without rows never gets that far: the run fails with the files as
    they were, as it does whenever the build raises. *)
Theorem main_saves_before_test now embeddings output efc m efs upload_r2 fs
    a user_ids :
  np_load (os_path_join embeddings "embeddings.npy") = Ok a ->
  read_user_ids (os_path_join embeddings "user_ids.json") = Ok user_ids ->
  (forall built,
     build now (rows a) user_ids
       (new_ANNIndex (Some (main_config efc m efs)) (Z.of_nat (shape1 a)))
       = (built, Ok tt) ->
     makedirs output fs = Ok tt ->
     exists g,
       index built = Some g /\
       (main knn_query makedirs np_load read_user_ids upload_step now
          embeddings output efc m efs upload_r2 fs).1
         = saved_dir output built g fs /\
       (user_ids = [] ->
        (main knn_query makedirs np_load read_user_ids upload_step now
           embeddings output efc m efs upload_r2 fs).2 = Err IndexError)) /\
  (forall self' e,
     build now (rows a) user_ids
       (new_ANNIndex (Some (main_config efc m efs)) (Z.of_nat (shape1 a)))
       = (self', Err e) ->
     main knn_query makedirs np_load read_user_ids upload_step now
       embeddings output efc m efs upload_r2 fs = (fs, Err e)) /\
  (rows a = [] ->
   exists e,
     main knn_query makedirs np_load read_user_ids upload_step now
       embeddings output efc m efs upload_r2 fs = (fs, Err e)).
Proof.
  intros Ha Hids.
  assert (forall self' e,
     build now (rows a) user_ids
       (new_ANNIndex (Some (main_config efc m efs)) (Z.of_nat (shape1 a)))
       = (self', Err e) ->
     main knn_query makedirs np_load read_user_ids upload_step now
       embeddings output efc m efs upload_r2 fs = (fs, Err e)) as Hfail.
  { intros self' e Hbuild. unfold main. rewrite Ha, Hids.
    change {| space := space default_config; ef_construction := efc; M := m;
              ef_search := efs; max_elements := max_elements default_config |}
      with (main_config efc m efs).
    by rewrite Hbuild. }
  split; [|split; [exact Hfail|]].
  - intros built Hbuild Hdir.
    pose proof Hbuild as Hb. apply build_inv in Hb as [_ Hbuilt].
    exists (built_graph (new_ANNIndex (Some (main_config efc m efs))
                           (Z.of_nat (shape1 a))) (rows a)).
    split; [by subst built|].
    unfold main. rewrite Ha, Hids.
    change {| space := space default_config; ef_construction := efc; M := m;
              ef_search := efs; max_elements := max_elements default_config |}
      with (main_config efc m efs).
    rewrite Hbuild, Hdir.
    rewrite (save_ok makedirs output built
               (built_graph (new_ANNIndex (Some (main_config efc m efs))
                               (Z.of_nat (shape1 a))) (rows a)))
      by (by subst built).
    split.
    + destruct (rows a) as [|row0 rest]; [done|].
      destruct user_ids as [|first_id ids]; [done|].
      destruct (query _ _ _ _ _) as [results|e]; [|done].
      destruct upload_r2; [|done]. by destruct (upload_step output).
    + intros ->. by destruct (rows a).
  - intros Hrows.
    destruct (build now (rows a) user_ids
                (new_ANNIndex (Some (main_config efc m efs))
                   (Z.of_nat (shape1 a)))) as [self' [[]|e]] eqn:Hbuild.
    + apply build_inv in Hbuild as [(_ & _ & _ & _ & Hne & _) _]. done.
    + exists e. by eapply Hfail.
Qed.

(** X16.  When [main] completes, the list its test query printed has at
    most five entries, none of them the first profile's own ID, and every
    one a non-empty ID of the ID file. *)
Theorem main_test_query now embeddings output efc m efs upload_r2 fs fs'
    results :
  main knn_query makedirs np_load read_user_ids upload_step now embeddings
    output efc m efs upload_r2 fs = (fs', Ok results) ->
  exists a first_id ids,
    np_load (os_path_join embeddings "embeddings.npy") = Ok a /\
    read_user_ids (os_path_join embeddings "user_ids.json")
      = Ok (first_id :: ids) /\
    (length results <= 5)%nat /\
    (first_id ∉ results.*1) /\
    (forall uid, uid ∈ results.*1 -> uid <> "" /\ uid ∈ first_id :: ids).
Proof.
  unfold main.
  destruct (np_load _) as [a|e]; [|done].
  destruct (read_user_ids _) as [user_ids|e]; [|done].
  destruct (build _ _ _ _) as [built [[]|e]] eqn:Hbuild; [|done].
  destruct (makedirs output fs) as [[]|e]; [|done].
  destruct (save makedirs output built fs) as [fs1 [[]|e]]; [|done].
  destruct (rows a) as [|row0 rest]; [done|].
  destruct user_ids as [|first_id ids]; [done|].
  destruct (query _ _ _ _ _) as [res|e] eqn:Hq; [|done].
  intros Hmain.
  assert (res = results) as ->.
  { destruct upload_r2; [|by injection Hmain].
    destruct (upload_step output); [by injection Hmain | done]. }
  exists a, first_id, ids. do 2 (split; [done|]).
  apply build_inv in Hbuild as [_ ->].
  apply query_inv in Hq as (g & ids0 & idss & ds0 & dss & _ & _ & ->).
  split; [rewrite length_take; change (Z.to_nat (Z.max 1 5)) with 5%nat; lia|].
  assert (forall uid, uid ∈ (take (Z.to_nat (Z.max 1 5))
             (surviving (built_state now (row0 :: rest) (first_id :: ids)
                (new_ANNIndex
                   (Some {| space := space default_config; ef_construction := efc;
                            M := m; ef_search := efs;
                            max_elements := max_elements default_config |})
                   (Z.of_nat (shape1 a))))
                (exclude_set_of (Some [first_id])) (zip ids0 ds0))).*1 ->
           uid <> "" /\ uid <> first_id /\ uid ∈ first_id :: ids) as Hall.
  { intros uid Hin. apply list_elem_of_fmap in Hin as ([u s] & -> & Hin).
    apply elem_of_take in Hin as (i & Hi & _).
    apply list_elem_of_lookup_2, elem_of_surviving in Hi
      as (h & d & _ & Hget & Hne & HE & _).
    simpl. split; [done|]. split.
    - intros Heq. subst u. apply HE. simpl. set_solver.
    - cbn [id_to_user built_state] in Hget.
      apply get_enumerate_Some in Hget as (j & _ & Hj).
      by eapply list_elem_of_lookup_2. }
  split.
  - intros Hin. by destruct (Hall _ Hin) as (_ & Hne & _).
  - intros uid Hin. destruct (Hall _ Hin) as (? & _ & ?). done.
Qed.
End PipelineFacts.

(** ** The further properties on worked inputs *)

(** [query_exclusion_list_invariance] on a worked input. *)
Lemma query_exclusion_list_invariance_witness :
  exclusion_size (Some ["b"; "a"]) = exclusion_size (Some ["a"; "b"]) /\
  (forall u, excluded (Some ["b"; "a"]) u <-> excluded (Some ["a"; "b"]) u) /\
  query Exact.knn_query Exact.two_profiles Exact.e1 1 (Some ["b"; "a"])
  = query Exact.knn_query Exact.two_profiles Exact.e1 1 (Some ["a"; "b"]).
Proof.
  assert (exclusion_size (Some ["b"; "a"]) = exclusion_size (Some ["a"; "b"]))
    as Hsize by reflexivity.
  assert (forall u, excluded (Some ["b"; "a"]) u <-> excluded (Some ["a"; "b"]) u)
    as Hsame by (intros u; simpl; set_solver).
  do 2 (split; [assumption|]).
  exact (query_exclusion_list_invariance Exact.knn_query Exact.two_profiles
           Exact.e1 1 _ _ Hsize Hsame).
Defined.

(** [query_nonpositive_k] on a worked input. *)
Lemma query_nonpositive_k_witness :
  0 <= 0 /\
  index Exact.two_profiles = Some (built_graph Exact.fresh2 [Exact.e1; Exact.e2]) /\
  Exact.knn_query (built_graph Exact.fresh2 [Exact.e1; Exact.e2]) [Exact.e1]
    (request_size 0 None (built_graph Exact.fresh2 [Exact.e1; Exact.e2]))
    = Ok ([0; 1] :: [], [0%Q; 1%Q] :: []) /\
  query Exact.knn_query Exact.two_profiles Exact.e1 0 None =
    Ok (take 1 (surviving Exact.two_profiles (exclude_set_of None)
                  (zip [0; 1] [0%Q; 1%Q]))).
Proof.
  assert (0 <= 0) as Hk by lia.
  assert (index Exact.two_profiles
          = Some (built_graph Exact.fresh2 [Exact.e1; Exact.e2])) as Hg
    by reflexivity.
  assert (Exact.knn_query (built_graph Exact.fresh2 [Exact.e1; Exact.e2])
            [Exact.e1]
            (request_size 0 None (built_graph Exact.fresh2 [Exact.e1; Exact.e2]))
          = Ok ([0; 1] :: [], [0%Q; 1%Q] :: [])) as Hknn
    by (vm_compute; reflexivity).
  do 3 (split; [assumption|]).
  exact (query_nonpositive_k Exact.knn_query Exact.two_profiles _ Exact.e1 0
           None [0; 1] [] [0%Q; 1%Q] [] Hk Hg Hknn).
Defined.

(** [batch_row_opens_query] on a worked input. *)
Lemma batch_row_opens_query_witness :
  1 <= 1 /\
  index Exact.two_profiles = Some (built_graph Exact.fresh2 [Exact.e1; Exact.e2]) /\
  Exact.knn_query (built_graph Exact.fresh2 [Exact.e1; Exact.e2]) [Exact.e1]
    (request_size 1 None (built_graph Exact.fresh2 [Exact.e1; Exact.e2]))
    = Ok ([0; 1] :: [], [0%Q; 1%Q] :: []) /\
  Exact.knn_query (built_graph Exact.fresh2 [Exact.e1; Exact.e2]) [Exact.e1] 1
    = Ok ([take (Z.to_nat 1) [0; 1]], [take (Z.to_nat 1) [0%Q; 1%Q]]) /\
  exists row res more,
    query_batch Exact.knn_query Exact.two_profiles [Exact.e1] 1 = Ok [row] /\
    query Exact.knn_query Exact.two_profiles Exact.e1 1 None = Ok res /\
    res = row ++ more /\
    (Z.of_nat (length row) = 1 -> more = []).
Proof.
  assert (1 <= 1) as Hk by lia.
  assert (index Exact.two_profiles
          = Some (built_graph Exact.fresh2 [Exact.e1; Exact.e2])) as Hg
    by reflexivity.
  assert (Exact.knn_query (built_graph Exact.fresh2 [Exact.e1; Exact.e2])
            [Exact.e1]
            (request_size 1 None (built_graph Exact.fresh2 [Exact.e1; Exact.e2]))
          = Ok ([0; 1] :: [], [0%Q; 1%Q] :: [])) as Hq
    by (vm_compute; reflexivity).
  assert (Exact.knn_query (built_graph Exact.fresh2 [Exact.e1; Exact.e2])
            [Exact.e1] 1
          = Ok ([take (Z.to_nat 1) [0; 1]], [take (Z.to_nat 1) [0%Q; 1%Q]])) as Hb
    by (vm_compute; reflexivity).
  do 4 (split; [assumption|]).
  exact (batch_row_opens_query Exact.knn_query Exact.two_profiles _ Exact.e1 1
           [0; 1] [] [0%Q; 1%Q] [] Hk Hg Hq Hb).
Defined.

(** [query_no_duplicates] on a worked input. *)
Lemma query_no_duplicates_witness :
  build Exact.built_at [Exact.e1; Exact.e2] ["a"; "b"] Exact.fresh2
    = (Exact.two_profiles, Ok tt) /\
  NoDup ["a"; "b"] /\
  index Exact.two_profiles = Some (built_graph Exact.fresh2 [Exact.e1; Exact.e2]) /\
  Exact.knn_query (built_graph Exact.fresh2 [Exact.e1; Exact.e2]) [Exact.e1]
    (request_size 2 None (built_graph Exact.fresh2 [Exact.e1; Exact.e2]))
    = Ok ([0; 1] :: [], [0%Q; 1%Q] :: []) /\
  NoDup [0; 1] /\
  exists res,
    query Exact.knn_query Exact.two_profiles Exact.e1 2 None = Ok res /\
    NoDup res.*1.
Proof.
  assert (build Exact.built_at [Exact.e1; Exact.e2] ["a"; "b"] Exact.fresh2
          = (Exact.two_profiles, Ok tt)) as Hbuild by (vm_compute; reflexivity).
  assert (NoDup ["a"; "b"]) as Hids by (by apply NoDup_cons_2; [set_solver | apply NoDup_singleton]).
  assert (index Exact.two_profiles
          = Some (built_graph Exact.fresh2 [Exact.e1; Exact.e2])) as Hg
    by reflexivity.
  assert (Exact.knn_query (built_graph Exact.fresh2 [Exact.e1; Exact.e2])
            [Exact.e1]
            (request_size 2 None (built_graph Exact.fresh2 [Exact.e1; Exact.e2]))
          = Ok ([0; 1] :: [], [0%Q; 1%Q] :: [])) as Hknn
    by (vm_compute; reflexivity).
  assert (NoDup [0; 1]) as Hlabels by (by apply NoDup_cons_2; [set_solver | apply NoDup_singleton]).
  do 5 (split; [assumption|]).
  exact (query_no_duplicates Exact.knn_query Exact.built_at [Exact.e1; Exact.e2]
           ["a"; "b"] Exact.fresh2 Exact.two_profiles _ Exact.e1 2 None
           [0; 1] [] [0%Q; 1%Q] [] Hbuild Hids Hg Hknn Hlabels).
Defined.

(** [queries_report_built_ids] on a worked input. *)
Lemma queries_report_built_ids_witness :
  build Exact.built_at [Exact.e1; Exact.e2] ["a"; "b"] Exact.fresh2
    = (Exact.two_profiles, Ok tt) /\
  query Exact.knn_query Exact.two_profiles Exact.e2 1 None = Ok [("b", 1%Q)] /\
  ("b", 1%Q) ∈ [("b", 1%Q)] /\
  "b" <> "" /\ exists i : nat, ["a"; "b"] !! i = Some "b".
Proof.
  assert (build Exact.built_at [Exact.e1; Exact.e2] ["a"; "b"] Exact.fresh2
          = (Exact.two_profiles, Ok tt)) as Hbuild by (vm_compute; reflexivity).
  assert (query Exact.knn_query Exact.two_profiles Exact.e2 1 None
          = Ok [("b", 1%Q)]) as Hq by (vm_compute; reflexivity).
  assert (("b", 1%Q) ∈ [("b", 1%Q)]) as Hin by left.
  do 3 (split; [assumption|]).
  exact (proj1 (queries_report_built_ids Exact.knn_query Exact.built_at
                  [Exact.e1; Exact.e2] ["a"; "b"] Exact.fresh2
                  Exact.two_profiles Hbuild)
           Exact.e2 1 None _ "b" 1%Q Hq Hin).
Defined.

(** [build_replaces_state] on a worked input: a controller that already
    holds an index is rebuilt to the state a fresh one reaches. *)
Lemma build_replaces_state_witness :
  config Exact.fresh2 = config Exact.l2_reloaded /\
  dim Exact.fresh2 = dim Exact.l2_reloaded /\
  build Exact.built_at [Exact.e1; Exact.e2] ["a"; "b"] Exact.fresh2
    = (Exact.two_profiles, Ok tt) /\
  build Exact.built_at [Exact.e1; Exact.e2] ["a"; "b"] Exact.l2_reloaded
    = (Exact.two_profiles, Ok tt).
Proof.
  assert (config Exact.fresh2 = config Exact.l2_reloaded) as Hcfg
    by (vm_compute; reflexivity).
  assert (dim Exact.fresh2 = dim Exact.l2_reloaded) as Hdim
    by (vm_compute; reflexivity).
  assert (build Exact.built_at [Exact.e1; Exact.e2] ["a"; "b"] Exact.fresh2
          = (Exact.two_profiles, Ok tt)) as Hbuild by (vm_compute; reflexivity).
  do 3 (split; [assumption|]).
  exact (build_replaces_state Exact.built_at [Exact.e1; Exact.e2] ["a"; "b"]
           Exact.fresh2 Exact.l2_reloaded Exact.two_profiles Hcfg Hdim Hbuild).
Defined.

(** [build_wrong_dimension] on a worked input. *)
Lemma build_wrong_dimension_witness :
  Hnsw.valid_space (space (config Exact.two_profiles)) = true /\
  0 <= ef_construction (config Exact.two_profiles) /\
  0 <= M (config Exact.two_profiles) /\
  ~ Forall (fun row => Z.of_nat (length row) = dim Exact.two_profiles)
      Worked.wide_rows /\
  exists self' g,
    build Exact.built_at Worked.wide_rows ["c"; "d"] Exact.two_profiles
      = (self', Err (RuntimeError WrongDimensionality)) /\
    index self' = Some g /\
    Hnsw.h_initialized g = true /\
    Hnsw.get_current_count g = 0 /\
    id_to_user self' = enumerate ["c"; "d"] /\
    metadata self' = metadata Exact.two_profiles.
Proof.
  assert (Hnsw.valid_space (space (config Exact.two_profiles)) = true) as Hsp
    by reflexivity.
  assert (0 <= ef_construction (config Exact.two_profiles)) as Hefc
    by (vm_compute; discriminate).
  assert (0 <= M (config Exact.two_profiles)) as HM
    by (vm_compute; discriminate).
  assert (~ Forall (fun row => Z.of_nat (length row) = dim Exact.two_profiles)
            Worked.wide_rows) as Hrows.
  { intros Hall. apply Forall_cons_1 in Hall as [Hrow _].
    vm_compute in Hrow. discriminate. }
  do 4 (split; [assumption|]).
  exact (build_wrong_dimension Exact.built_at Worked.wide_rows ["c"; "d"]
           Exact.two_profiles Hsp Hefc HM Hrows).
Defined.

(** [identifier_maps_inverse] on a worked input with a repeated ID. *)
Lemma identifier_maps_inverse_witness :
  build Exact.built_at [Exact.e1; Exact.e2] ["a"; "a"] Exact.fresh2
    = (built_state Exact.built_at [Exact.e1; Exact.e2] ["a"; "a"] Exact.fresh2,
       Ok tt) /\
  PyDict.get "a"
    (user_to_id (built_state Exact.built_at [Exact.e1; Exact.e2] ["a"; "a"]
                   Exact.fresh2)) = Some 1 /\
  PyDict.get 1
    (id_to_user (built_state Exact.built_at [Exact.e1; Exact.e2] ["a"; "a"]
                   Exact.fresh2)) = Some "a".
Proof.
  assert (build Exact.built_at [Exact.e1; Exact.e2] ["a"; "a"] Exact.fresh2
          = (built_state Exact.built_at [Exact.e1; Exact.e2] ["a"; "a"]
               Exact.fresh2, Ok tt)) as Hbuild by (vm_compute; reflexivity).
  assert (PyDict.get "a"
            (user_to_id (built_state Exact.built_at [Exact.e1; Exact.e2]
                           ["a"; "a"] Exact.fresh2)) = Some 1) as Hget
    by (vm_compute; reflexivity).
  do 2 (split; [assumption|]).
  exact (proj1 (proj2 (identifier_maps_inverse Exact.built_at
                         [Exact.e1; Exact.e2] ["a"; "a"] Exact.fresh2 _ Hbuild))
           "a" 1 Hget).
Defined.

(** [save_writes_two_files] on a worked input. *)
Lemma save_writes_two_files_witness :
  index Exact.two_profiles = Some (built_graph Exact.fresh2 [Exact.e1; Exact.e2]) /\
  Hnsw.h_initialized (built_graph Exact.fresh2 [Exact.e1; Exact.e2]) = true /\
  Exact.makedirs "out" ∅ = Ok tt /\
  exists fs',
    save Exact.makedirs "out" Exact.two_profiles ∅ = (fs', Ok tt) /\
    fs' !! os_path_join "out" "index.bin"
      = Some (IndexBin (built_graph Exact.fresh2 [Exact.e1; Exact.e2])) /\
    fs' !! os_path_join "out" "mappings.json"
      = Some (MappingsJson (saved_sidecar Exact.two_profiles)) /\
    (forall p,
       p <> os_path_join "out" "index.bin" ->
       p <> os_path_join "out" "mappings.json" ->
       fs' !! p = (∅ : gmap string (file Q)) !! p) /\
    (Exact.makedirs "out" fs' = Ok tt ->
     save Exact.makedirs "out" Exact.two_profiles fs' = (fs', Ok tt)).
Proof.
  assert (index Exact.two_profiles
          = Some (built_graph Exact.fresh2 [Exact.e1; Exact.e2])) as Hg
    by reflexivity.
  assert (Hnsw.h_initialized (built_graph Exact.fresh2 [Exact.e1; Exact.e2])
          = true) as Hinit by reflexivity.
  assert (Exact.makedirs "out" ∅ = Ok tt) as Hdir by reflexivity.
  do 3 (split; [assumption|]).
  exact (proj2 (proj2 (save_writes_two_files Exact.makedirs "out"
                         Exact.two_profiles ∅)) _ Hg Hinit Hdir).
Defined.

(** [load_restores_saved] on a worked input: an index built under the
    Euclidean space and of dimension 2, loaded into a controller created
    with the defaults. *)
Lemma load_restores_saved_witness :
  build Exact.built_at [Exact.e1; Exact.e2] ["a"; "b"]
    (new_ANNIndex (Some Exact.l2_config) 2) = (Exact.l2_profiles, Ok tt) /\
  save Exact.makedirs "out" Exact.l2_profiles ∅ = (Exact.l2_saved, Ok tt) /\
  0 <= ef_search (config (new_ANNIndex (F:=Q) None 384)) < 2 ^ 64 /\
  exists g,
    index Exact.l2_profiles = Some g /\
    Exact.l2_saved = saved_dir "out" Exact.l2_profiles g ∅ /\
    load "out" Exact.l2_saved (new_ANNIndex None 384) =
      ({| config := config (new_ANNIndex (F:=Q) None 384);
          dim := dim Exact.l2_profiles;
          index :=
            Some (with_ef (ef_search (config (new_ANNIndex (F:=Q) None 384))) g);
          id_to_user := id_to_user Exact.l2_profiles;
          user_to_id := user_to_id Exact.l2_profiles;
          metadata := metadata Exact.l2_profiles |}, Ok tt).
Proof.
  assert (build Exact.built_at [Exact.e1; Exact.e2] ["a"; "b"]
            (new_ANNIndex (Some Exact.l2_config) 2)
          = (Exact.l2_profiles, Ok tt)) as Hbuild by (vm_compute; reflexivity).
  assert (save Exact.makedirs "out" Exact.l2_profiles ∅
          = (Exact.l2_saved, Ok tt)) as Hsave by (vm_compute; reflexivity).
  assert (0 <= ef_search (config (new_ANNIndex (F:=Q) None 384)) < 2 ^ 64) as Hef
    by (simpl; lia).
  do 3 (split; [assumption|]).
  exact (load_restores_saved Exact.makedirs Exact.built_at [Exact.e1; Exact.e2]
           ["a"; "b"] (new_ANNIndex (Some Exact.l2_config) 2) Exact.l2_profiles
           "out" ∅ Exact.l2_saved (new_ANNIndex None 384) Hbuild Hsave Hef).
Defined.

(** [reload_is_identity] on a worked input. *)
Lemma reload_is_identity_witness :
  build Exact.built_at [Exact.e1; Exact.e2] ["a"; "b"]
    (new_ANNIndex (Some Exact.l2_config) 2) = (Exact.l2_profiles, Ok tt) /\
  save Exact.makedirs "out" Exact.l2_profiles ∅ = (Exact.l2_saved, Ok tt) /\
  load "out" Exact.l2_saved Exact.l2_profiles = (Exact.l2_profiles, Ok tt).
Proof.
  assert (build Exact.built_at [Exact.e1; Exact.e2] ["a"; "b"]
            (new_ANNIndex (Some Exact.l2_config) 2)
          = (Exact.l2_profiles, Ok tt)) as Hbuild by (vm_compute; reflexivity).
  assert (save Exact.makedirs "out" Exact.l2_profiles ∅
          = (Exact.l2_saved, Ok tt)) as Hsave
    by (vm_compute; reflexivity).
  do 2 (split; [assumption|]).
  exact (reload_is_identity Exact.makedirs Exact.built_at [Exact.e1; Exact.e2]
           ["a"; "b"] (new_ANNIndex (Some Exact.l2_config) 2) Exact.l2_profiles
           "out" ∅ Exact.l2_saved Hbuild Hsave).
Defined.

(** [load_missing_binary] on a worked input: a usable controller loads a
    directory that holds the sidecar only. *)
Lemma load_missing_binary_witness :
  Worked.sidecar_only !! os_path_join "out" "mappings.json"
    = Some (MappingsJson Exact.bare_sidecar) /\
  int_keys (PyDict.of_pairs [("0", "a"); ("1", "b")]) = Ok [(0, "a"); (1, "b")] /\
  Worked.sidecar_only !! os_path_join "out" "index.bin" = None /\
  exists self' g,
    load "out" Worked.sidecar_only Exact.two_profiles
      = (self', Err (RuntimeError CannotOpenFile)) /\
    id_to_user self' = PyDict.of_pairs [(0, "a"); (1, "b")] /\
    metadata self'
      = default [] (PyDict.of_pairs <$> sc_metadata Exact.bare_sidecar) /\
    dim self' = dim Exact.two_profiles /\
    index self' = Some g /\
    Hnsw.h_initialized g = false.
Proof.
  assert (Worked.sidecar_only !! os_path_join "out" "mappings.json"
          = Some (MappingsJson Exact.bare_sidecar)) as Hfile
    by (vm_compute; reflexivity).
  assert (int_keys (PyDict.of_pairs [("0", "a"); ("1", "b")])
          = Ok [(0, "a"); (1, "b")]) as Hkeys by (vm_compute; reflexivity).
  assert (Worked.sidecar_only !! os_path_join "out" "index.bin" = None) as Hbin
    by (vm_compute; reflexivity).
  do 3 (split; [assumption|]).
  exact (load_missing_binary "out" Worked.sidecar_only Exact.two_profiles
           Exact.bare_sidecar [("0", "a"); ("1", "b")] [(0, "a"); (1, "b")]
           (dim Exact.two_profiles) (space (config Exact.two_profiles))
           Hfile eq_refl Hkeys (or_introl (conj eq_refl eq_refl))
           (or_introl (conj eq_refl eq_refl)) eq_refl Hbin).
Defined.

(** [build_index_from_embeddings_outcome] on a worked input. *)
Lemma build_index_from_embeddings_outcome_witness :
  Worked.np_load "data/embeddings.npy"
    = Ok {| shape1 := 2; rows := [Exact.e1; Exact.e2] |} /\
  Worked.read_user_ids "data/user_ids.json" = Ok ["a"; "b"] /\
  build Exact.built_at [Exact.e1; Exact.e2] ["a"; "b"] Exact.fresh2
    = (Exact.two_profiles, Ok tt) /\
  Exact.makedirs "out" ∅ = Ok tt /\
  exists g,
    index Exact.two_profiles = Some g /\
    build_index_from_embeddings Exact.makedirs Worked.np_load
      Worked.read_user_ids Exact.built_at "data/embeddings.npy"
      "data/user_ids.json" "out" None ∅
      = (saved_dir "out" Exact.two_profiles g ∅, Ok Exact.two_profiles) /\
    dim Exact.two_profiles
      = Z.of_nat (shape1 {| shape1 := 2; rows := [Exact.e1; Exact.e2] |}) /\
    Hnsw.get_current_count g
      = Z.of_nat (length (rows {| shape1 := 2; rows := [Exact.e1; Exact.e2] |})) /\
    (forall i : nat,
       PyDict.get (Z.of_nat i) (id_to_user Exact.two_profiles) = ["a"; "b"] !! i).
Proof.
  assert (Worked.np_load "data/embeddings.npy"
          = Ok {| shape1 := 2; rows := [Exact.e1; Exact.e2] |}) as Ha
    by reflexivity.
  assert (Worked.read_user_ids "data/user_ids.json" = Ok ["a"; "b"]) as Hids
    by reflexivity.
  assert (build Exact.built_at [Exact.e1; Exact.e2] ["a"; "b"] Exact.fresh2
          = (Exact.two_profiles, Ok tt)) as Hbuild by (vm_compute; reflexivity).
  assert (Exact.makedirs "out" ∅ = Ok tt) as Hdir by reflexivity.
  do 4 (split; [assumption|]).
  exact (proj2 (proj2 (proj2 (proj2 (proj2
           (build_index_from_embeddings_outcome Exact.makedirs Worked.np_load
              Worked.read_user_ids Exact.built_at "data/embeddings.npy"
              "data/user_ids.json" "out" None ∅))
           _ _ Ha Hids)) Exact.two_profiles Hbuild) Hdir).
Defined.

(** [main_saves_before_test] on worked inputs: a matrix of two rows, and
    a matrix without rows. *)
Lemma main_saves_before_test_witness :
  (Worked.np_load (os_path_join "data" "embeddings.npy")
     = Ok {| shape1 := 2; rows := [Exact.e1; Exact.e2] |} /\
   Worked.read_user_ids (os_path_join "data" "user_ids.json") = Ok ["a"; "b"] /\
   build Exact.built_at [Exact.e1; Exact.e2] ["a"; "b"]
     (new_ANNIndex (Some (main_config 200 16 100)) 2)
     = (Exact.two_profiles, Ok tt) /\
   Exact.makedirs "out" ∅ = Ok tt /\
   main Exact.knn_query Exact.makedirs Worked.np_load Worked.read_user_ids
     Worked.upload_step Exact.built_at "data" "out" 200 16 100 true ∅
     = (saved_dir "out" Exact.two_profiles
          (built_graph Exact.fresh2 [Exact.e1; Exact.e2]) ∅,
        Ok [("b", 0%Q)]) /\
   exists g,
     index Exact.two_profiles = Some g /\
     (main Exact.knn_query Exact.makedirs Worked.np_load Worked.read_user_ids
        Worked.upload_step Exact.built_at "data" "out" 200 16 100 true ∅).1
       = saved_dir "out" Exact.two_profiles g ∅ /\
     (["a"; "b"] = [] ->
      (main Exact.knn_query Exact.makedirs Worked.np_load Worked.read_user_ids
         Worked.upload_step Exact.built_at "data" "out" 200 16 100 true ∅).2
        = Err IndexError)) /\
  (Worked.np_load_empty (os_path_join "data" "embeddings.npy")
     = Ok {| shape1 := 2; rows := [] |} /\
   Worked.read_user_ids (os_path_join "data" "user_ids.json") = Ok ["a"; "b"] /\
   main Exact.knn_query Exact.makedirs Worked.np_load_empty
     Worked.read_user_ids Worked.upload_step Exact.built_at "data" "out"
     200 16 100 false ∅ = (∅, Err IndexError) /\
   exists e,
     main Exact.knn_query Exact.makedirs Worked.np_load_empty
       Worked.read_user_ids Worked.upload_step Exact.built_at "data" "out"
       200 16 100 false ∅ = (∅, Err e)).
Proof.
  assert (Worked.np_load (os_path_join "data" "embeddings.npy")
          = Ok {| shape1 := 2; rows := [Exact.e1; Exact.e2] |}) as Ha
    by reflexivity.
  assert (Worked.read_user_ids (os_path_join "data" "user_ids.json")
          = Ok ["a"; "b"]) as Hids by reflexivity.
  assert (build Exact.built_at [Exact.e1; Exact.e2] ["a"; "b"]
            (new_ANNIndex (Some (main_config 200 16 100)) 2)
          = (Exact.two_profiles, Ok tt)) as Hbuild by (vm_compute; reflexivity).
  assert (Exact.makedirs "out" ∅ = Ok tt) as Hdir by reflexivity.
  assert (main Exact.knn_query Exact.makedirs Worked.np_load
            Worked.read_user_ids Worked.upload_step Exact.built_at "data"
            "out" 200 16 100 true ∅
          = (saved_dir "out" Exact.two_profiles
               (built_graph Exact.fresh2 [Exact.e1; Exact.e2]) ∅,
             Ok [("b", 0%Q)])) as Hmain
    by (vm_compute; reflexivity).
  assert (Worked.np_load_empty (os_path_join "data" "embeddings.npy")
          = Ok {| shape1 := 2; rows := [] |}) as Ha' by reflexivity.
  assert (main Exact.knn_query Exact.makedirs Worked.np_load_empty
            Worked.read_user_ids Worked.upload_step Exact.built_at "data" "out"
            200 16 100 false ∅ = (∅, Err IndexError)) as Hmain'
    by (vm_compute; reflexivity).
  split.
  - do 5 (split; [assumption|]).
    exact (proj1 (main_saves_before_test Exact.knn_query Exact.makedirs
                    Worked.np_load Worked.read_user_ids Worked.upload_step
                    Exact.built_at "data" "out" 200 16 100 true ∅ _ _ Ha Hids)
             Exact.two_profiles Hbuild Hdir).
  - do 3 (split; [assumption|]).
    exact (proj2 (proj2 (main_saves_before_test Exact.knn_query Exact.makedirs
                           Worked.np_load_empty Worked.read_user_ids
                           Worked.upload_step Exact.built_at "data" "out"
                           200 16 100 false ∅ _ _ Ha' Hids)) eq_refl).
Defined.

(** [main_test_query] on a worked input. *)
Lemma main_test_query_witness :
  main Exact.knn_query Exact.makedirs Worked.np_load Worked.read_user_ids
    Worked.upload_step Exact.built_at "data" "out" 200 16 100 true ∅
    = (saved_dir "out" Exact.two_profiles
         (built_graph Exact.fresh2 [Exact.e1; Exact.e2]) ∅,
       Ok [("b", 0%Q)]) /\
  exists a first_id ids,
    Worked.np_load (os_path_join "data" "embeddings.npy") = Ok a /\
    Worked.read_user_ids (os_path_join "data" "user_ids.json")
      = Ok (first_id :: ids) /\
    (length [("b", 0%Q)] <= 5)%nat /\
    (first_id ∉ [("b", 0%Q)].*1) /\
    (forall uid, uid ∈ [("b", 0%Q)].*1 -> uid <> "" /\ uid ∈ first_id :: ids).
Proof.
  assert (main Exact.knn_query Exact.makedirs Worked.np_load
            Worked.read_user_ids Worked.upload_step Exact.built_at "data" "out"
            200 16 100 true ∅
          = (saved_dir "out" Exact.two_profiles
               (built_graph Exact.fresh2 [Exact.e1; Exact.e2]) ∅,
             Ok [("b", 0%Q)])) as Hmain by (vm_compute; reflexivity).
  split; [assumption|].
  exact (main_test_query Exact.knn_query Exact.makedirs Worked.np_load
           Worked.read_user_ids Worked.upload_step Exact.built_at "data" "out"
           200 16 100 true ∅ _ _ Hmain).
Defined.

(** [build_failure_states] on worked inputs: an unknown space name, and
    rows of the wrong width on a controller that holds an index. *)
Lemma build_failure_states_witness :
  (Hnsw.valid_space
     (space (config (new_ANNIndex (F:=Q) (Some Worked.euclidean_config) 2)))
     = false /\
   build Exact.built_at [Exact.e1; Exact.e2] ["a"; "b"]
     (new_ANNIndex (Some Worked.euclidean_config) 2)
     = (new_ANNIndex (Some Worked.euclidean_config) 2,
        Err (RuntimeError BadSpaceName))) /\
  (Hnsw.valid_space (space (config Exact.two_profiles)) = true /\
   - 2 ^ 31 <= dim Exact.two_profiles < 2 ^ 31 /\
   build Exact.built_at Worked.wide_rows ["c"; "d"] Exact.two_profiles
     = ((build Exact.built_at Worked.wide_rows ["c"; "d"] Exact.two_profiles).1,
        Err (RuntimeError WrongDimensionality)) /\
   config (build Exact.built_at Worked.wide_rows ["c"; "d"] Exact.two_profiles).1
     = config Exact.two_profiles /\
   dim (build Exact.built_at Worked.wide_rows ["c"; "d"] Exact.two_profiles).1
     = dim Exact.two_profiles /\
   metadata (build Exact.built_at Worked.wide_rows ["c"; "d"] Exact.two_profiles).1
     = metadata Exact.two_profiles /\
   exists g,
     index (build Exact.built_at Worked.wide_rows ["c"; "d"] Exact.two_profiles).1
       = Some g /\
     forall item, item ∈ Hnsw.h_items g ->
       item ∈ zip (arange (length Worked.wide_rows)) Worked.wide_rows).
Proof.
  assert (Hnsw.valid_space
            (space (config (new_ANNIndex (F:=Q) (Some Worked.euclidean_config) 2)))
          = false) as Hbad by reflexivity.
  assert (Hnsw.valid_space (space (config Exact.two_profiles)) = true) as Hsp
    by reflexivity.
  assert (- 2 ^ 31 <= dim Exact.two_profiles < 2 ^ 31) as Hdim
    by (simpl; lia).
  assert (build Exact.built_at Worked.wide_rows ["c"; "d"] Exact.two_profiles
          = ((build Exact.built_at Worked.wide_rows ["c"; "d"]
                Exact.two_profiles).1,
             Err (RuntimeError WrongDimensionality))) as Hfail
    by (vm_compute; reflexivity).
  split.
  - split; [assumption|].
    exact (proj1 (build_failure_states Exact.built_at [Exact.e1; Exact.e2]
                    ["a"; "b"] (new_ANNIndex (Some Worked.euclidean_config) 2))
             Hbad).
  - do 3 (split; [assumption|]).
    exact (proj2 (build_failure_states Exact.built_at Worked.wide_rows
                    ["c"; "d"] Exact.two_profiles) Hsp Hdim _ _ Hfail).
Defined.
